(** * Books api: the event, user and book handlers of [5.py]

    A shallow embedding of the FastAPI application defined in [5.py]: the
    pydantic models, the three tables created at start-up, the SQL statements
    the handlers send through their cursor, and the handlers themselves,
    written in a small state-and-exception monad over the connection.

    Modelling conventions.
    - Python values that the handlers inspect dynamically (what [fetchone] and
      [fetchall] return, [isinstance(_, tuple)], truthiness, [x[0]],
      [x in list_]) are values of the type [value], with one definition per
      Python operation.
    - A connection holds the committed tables, the tables as seen by the open
      transaction, the rows of the last executed statement and the list of
      statements executed so far.
    - The store is the relational content declared by the [CREATE TABLE]
      statements: [AUTO_INCREMENT] keys, [UNIQUE] on [users.name] and the
      range of [count INTEGER], whose handling depends on the SQL mode of the
      server, a parameter.  The store is assumed reachable; [WHERE name = %s]
      is exact string equality.
    - A path parameter arrives as the text of its path segment ([route]); the
      conversion of such a text to [int] is a parameter.
    - Datetimes and dates are integers (a point on the time line).
    - [except aiomysql.Error as e: raise e] raises again what it caught and is
      not written out; [except aiomysql.IntegrityError] of [create_user] is
      [except_IntegrityError]. *)

From Stdlib Require Import ZArith List String Ascii Bool Lia DecimalString.
Import ListNotations.
Local Open Scope string_scope.
Local Open Scope Z_scope.
Set Warnings "-register-all".

(** ** Python values *)

Inductive value : Type :=
| VNone
| VInt (n : Z)
| VStr (s : string)
| VTuple (items : list value).

(** [isinstance(v, tuple)] *)
Definition isinstance_tuple (v : value) : bool :=
  match v with
  | VTuple _ => true
  | _ => false
  end.

(** Truth value of [v] in an [if] *)
Definition truthy (v : value) : bool :=
  match v with
  | VNone => false
  | VInt n => negb (n =? 0)
  | VStr s => negb (String.eqb s "")
  | VTuple items => match items with [] => false | _ :: _ => true end
  end.

(** [a == b]: an [int] never equals a [str], whatever their text *)
Fixpoint py_eq (a b : value) {struct a} : bool :=
  match a, b with
  | VNone, VNone => true
  | VInt x, VInt y => x =? y
  | VStr x, VStr y => String.eqb x y
  | VTuple xs, VTuple ys =>
      (fix all2 (l : list value) (r : list value) {struct l} : bool :=
         match l, r with
         | [], [] => true
         | x :: l', y :: r' => py_eq x y && all2 l' r'
         | _, _ => false
         end) xs ys
  | _, _ => false
  end.

(** [a in list_] *)
Definition py_in (a : value) (list_ : list value) : bool :=
  existsb (fun b => py_eq a b) list_.

(** [str(n)] for an [int] *)
Definition str_of_int (n : Z) : string :=
  NilZero.string_of_int (Z.to_int n).

Definition join (sep : string) (parts : list string) : string :=
  match parts with
  | [] => ""
  | p :: ps => fold_left (fun acc q => acc ++ sep ++ q) ps p
  end.

(** [f"{v}"].  Only cells of a row are ever formatted by the handlers; the
    rendering of a tuple quotes its strings without escaping. *)
Fixpoint format (v : value) : string :=
  match v with
  | VNone => "None"
  | VInt n => str_of_int n
  | VStr s => s
  | VTuple items =>
      let quoted (i : value) : string :=
        match i with
        | VStr s => "'" ++ s ++ "'"
        | _ => format i
        end in
      match items with
      | [i] => "(" ++ quoted i ++ ",)"
      | _ => "(" ++ join ", " (map quoted items) ++ ")"
      end
  end.

(** [s.split(sep)] for a one-character separator *)
Fixpoint split (sep : ascii) (s : string) : list string :=
  match s with
  | EmptyString => [EmptyString]
  | String c rest =>
      if Ascii.eqb c sep then EmptyString :: split sep rest
      else match split sep rest with
           | [] => [String c EmptyString]
           | w :: ws => String c w :: ws
           end
  end.

(** [any(p(c) for c in s)] *)
Fixpoint any (p : ascii -> bool) (s : string) : bool :=
  match s with
  | EmptyString => false
  | String c rest => p c || any p rest
  end.

(** ** Request models (pydantic) *)

Module Book.
Record t : Type := mk
  { title : string; author : string; description : string;
    count : Z; year : Z }.
End Book.

Module Event.
Record t : Type := mk
  { title : string; user : string; description : string; time : Z }.
End Event.

Module EventEdit.
Record t : Type := mk
  { title : string; user : string; description : string }.
End EventEdit.

Module User.
Record t : Type := mk
  { name : string; surname : string; email : string; password : string;
    phone : string; is_admin : bool }.
End User.

(** [FutureDatetime]: the value lies after the instant of validation *)
Definition FutureDatetime (now t : Z) : bool := now <? t.

(** ** Exceptions and responses *)

Inductive raised : Type :=
| HTTPException (status_code : Z) (detail : string)
| IntegrityError
| DataError
| IndexError
| TypeError
| RequestValidationError.

Definition HTTP_200_OK : Z := 200.
Definition HTTP_201_CREATED : Z := 201.
Definition HTTP_400_BAD_REQUEST : Z := 400.
Definition HTTP_403_FORBIDDEN : Z := 403.
Definition HTTP_404_NOT_FOUND : Z := 404.
Definition HTTP_409_CONFLICT : Z := 409.

(** ** The store: the tables of [create_tables] *)

Module EventRow.
Record t : Type := mk
  { id : Z; title : string; user : string; description : string;
    members : string; time : Z }.

(** The row as the tuple of [SELECT *], in the order of [CREATE TABLE] *)
Definition columns : list string :=
  ["id"; "title"; "user"; "description"; "members"; "time"].
Definition cells (r : t) : list value :=
  [VInt (id r); VStr (title r); VStr (user r); VStr (description r);
   VStr (members r); VInt (time r)].
End EventRow.

Module UsersRow.
Record t : Type := mk
  { id : Z; name : string; surname : string; email : string;
    password : string; phone : string; isadmin : bool }.
End UsersRow.

Module BooksRow.
Record t : Type := mk
  { id : Z; title : string; author : string; description : string;
    count : Z; year : Z }.

Definition columns : list string :=
  ["id"; "title"; "author"; "description"; "count"; "year"].
Definition cells (r : t) : list value :=
  [VInt (id r); VStr (title r); VStr (author r); VStr (description r);
   VInt (count r); VInt (year r)].
End BooksRow.

Record database : Type := mkdb
  { event : list EventRow.t;
    users : list UsersRow.t;
    books : list BooksRow.t;
    event_auto_increment : Z;
    users_auto_increment : Z;
    books_auto_increment : Z }.

Definition set_event (rows : list EventRow.t) (db : database) : database :=
  mkdb rows (users db) (books db)
       (event_auto_increment db) (users_auto_increment db) (books_auto_increment db).

(** The SQL statements of the application, as they appear in the source *)
Inductive statement : Type :=
| SELECT_isadmin_FROM_users_WHERE_name (name : string)
| SELECT_id_FROM_event_WHERE_id (id : Z)
| SELECT_members_FROM_event_WHERE_id (id : Z)
| SELECT_id_FROM_users_WHERE_id (id : Z)
| SELECT_all_FROM_books
| SELECT_all_FROM_event
| SELECT_all_FROM_books_WHERE_id (book_id : string)
| SELECT_all_FROM_event_WHERE_id (event_id : string)
| INSERT_INTO_books (title author description : string) (year count : Z)
| INSERT_INTO_event (title user description : string) (time : Z)
| INSERT_INTO_users (name surname email phone password : string) (isadmin : bool)
| UPDATE_event_SET_title_description (title description : string) (id : Z)
| UPDATE_event_SET_time (time id : Z)
| UPDATE_event_SET_members (members : string) (id : Z)
| DELETE_FROM_event_WHERE_id (id : Z)
| COMMIT.

(** ** Connection, cursor and the handler monad *)

Record connection : Type := mkconn
  { committed : database;            (* what other connections see *)
    transaction : database;          (* the tables inside the open transaction *)
    description : list string;       (* column names of the last result *)
    result : list (list value);      (* rows of the last result not yet fetched *)
    executed : list statement }.     (* statements sent so far, oldest first *)

(** [get_mysql_connection()] on the store [db] *)
Definition get_mysql_connection (db : database) : connection :=
  mkconn db db [] [] [].

Definition io (A : Type) : Type := connection -> (raised + A) * connection.

Definition ret {A : Type} (a : A) : io A := fun c => (inr a, c).

Definition raise {A : Type} (e : raised) : io A := fun c => (inl e, c).

Definition bind {A B : Type} (m : io A) (k : A -> io B) : io B :=
  fun c =>
    match m c with
    | (inl e, c') => (inl e, c')
    | (inr a, c') => k a c'
    end.

Notation "x <- m ;; k" := (bind m (fun x => k))
  (at level 61, m at next level, right associativity).
Notation "m ;; k" := (bind m (fun _ => k))
  (at level 61, right associativity).

(** [try: m except aiomysql.IntegrityError: h] *)
Definition except_IntegrityError {A : Type} (m h : io A) : io A :=
  fun c =>
    match m c with
    | (inl IntegrityError, c') => h c'
    | other => other
    end.

(** [cursor.execute] of a [SELECT] *)
Definition query (s : statement) (names : list string)
    (rows : database -> list (list value)) : io unit :=
  fun c =>
    (inr tt,
     mkconn (committed c) (transaction c) names (rows (transaction c))
            (executed c ++ [s])).

(** [cursor.execute] of an [INSERT], [UPDATE] or [DELETE] *)
Definition modify (s : statement) (f : database -> raised + database) : io unit :=
  fun c =>
    match f (transaction c) with
    | inl e =>
        (inl e,
         mkconn (committed c) (transaction c) [] [] (executed c ++ [s]))
    | inr db' =>
        (inr tt, mkconn (committed c) db' [] [] (executed c ++ [s]))
    end.

(** [connection.commit()] *)
Definition commit : io unit :=
  fun c =>
    (inr tt,
     mkconn (transaction c) (transaction c) (description c) (result c)
            (executed c ++ [COMMIT])).

(** [cursor.fetchone()]: the next row as a tuple, [None] when there is none *)
Definition fetchone : io value :=
  fun c =>
    match result c with
    | [] => (inr VNone, c)
    | row :: rest =>
        (inr (VTuple row),
         mkconn (committed c) (transaction c) (description c) rest (executed c))
    end.

(** [cursor.fetchall()]: the tuple of all remaining rows, each a tuple *)
Definition fetchall : io value :=
  fun c =>
    (inr (VTuple (map VTuple (result c))),
     mkconn (committed c) (transaction c) (description c) [] (executed c)).

(** The rows of a result as a [DictCursor] returns them *)
Definition as_dicts (columns : list string) (rows : list (list value))
    : list (list (string * value)) :=
  map (fun row => combine columns row) rows.

(** [cursor.fetchall()] of a [DictCursor]: each row keyed by column name *)
Definition fetchall_dict : io (list (list (string * value))) :=
  fun c =>
    (inr (as_dicts (description c) (result c)),
     mkconn (committed c) (transaction c) (description c) [] (executed c)).

(** [v[i]] *)
Definition getitem (v : value) (i : nat) : io value :=
  match v with
  | VTuple items =>
      match nth_error items i with
      | Some x => ret x
      | None => raise IndexError
      end
  | VStr s =>
      match String.get i s with
      | Some ch => ret (VStr (String ch EmptyString))
      | None => raise IndexError
      end
  | _ => raise TypeError
  end.

(** ** The statements *)

Definition name_is (name : string) (u : UsersRow.t) : bool :=
  String.eqb (UsersRow.name u) name.

Definition event_id_is (id : Z) (e : EventRow.t) : bool :=
  EventRow.id e =? id.

(** [SELECT isadmin FROM users WHERE name = %s;] *)
Definition select_isadmin (name : string) : io unit :=
  query (SELECT_isadmin_FROM_users_WHERE_name name) ["isadmin"]
    (fun db =>
       map (fun u => [VInt (Z.b2z (UsersRow.isadmin u))])
           (filter (name_is name) (users db))).

(** [SELECT id FROM event WHERE id = %s;] *)
Definition select_event_id (id : Z) : io unit :=
  query (SELECT_id_FROM_event_WHERE_id id) ["id"]
    (fun db =>
       map (fun e => [VInt (EventRow.id e)])
           (filter (event_id_is id) (event db))).

(** [SELECT members FROM event WHERE id = %s;] *)
Definition select_members (id : Z) : io unit :=
  query (SELECT_members_FROM_event_WHERE_id id) ["members"]
    (fun db =>
       map (fun e => [VStr (EventRow.members e)])
           (filter (event_id_is id) (event db))).

(** [SELECT id FROM users WHERE id = %s;] *)
Definition select_user_id (id : Z) : io unit :=
  query (SELECT_id_FROM_users_WHERE_id id) ["id"]
    (fun db =>
       map (fun u => [VInt (UsersRow.id u)])
           (filter (fun u => UsersRow.id u =? id) (users db))).

(** [SELECT * FROM books;] *)
Definition select_books : io unit :=
  query SELECT_all_FROM_books BooksRow.columns
    (fun db => map BooksRow.cells (books db)).

(** [SELECT * FROM event;] *)
Definition select_events : io unit :=
  query SELECT_all_FROM_event EventRow.columns
    (fun db => map EventRow.cells (event db)).

(** [count INTEGER]: a signed column of 32 bits *)
Definition INTEGER_MIN : Z := -2147483648.
Definition INTEGER_MAX : Z := 2147483647.

Definition fits_INTEGER (n : Z) : bool :=
  (INTEGER_MIN <=? n) && (n <=? INTEGER_MAX).

(** The nearest value of the column's range *)
Definition clamp_INTEGER (n : Z) : Z :=
  Z.max INTEGER_MIN (Z.min n INTEGER_MAX).

Section InsertBook.
(** Whether the server runs in strict SQL mode: it then refuses a value
    outside the range of its column, and otherwise stores the nearest value
    of the range. *)
Variable strict_mode : bool.

(** [INSERT INTO books (title, author, description, year, count)
     VALUES (%s, %s, %s, %s, %s)]; [Book.count] is any [int], the column is
    [count INTEGER] *)
Definition insert_book (title author description : string) (year count : Z)
    : io unit :=
  modify (INSERT_INTO_books title author description year count)
    (fun db =>
       let stored (count' : Z) : database :=
         mkdb (event db) (users db)
           (books db ++
              [BooksRow.mk (books_auto_increment db) title author
                 description count' year])
           (event_auto_increment db) (users_auto_increment db)
           (books_auto_increment db + 1) in
       if fits_INTEGER count then inr (stored count)
       else if strict_mode then inl DataError
       else inr (stored (clamp_INTEGER count))).
End InsertBook.

(** [INSERT INTO event (title, user, description, time, members)
     VALUES (%s, %s, %s, %s, '')] *)
Definition insert_event (title user description : string) (time : Z)
    : io unit :=
  modify (INSERT_INTO_event title user description time)
    (fun db =>
       inr (mkdb
              (event db ++
                 [EventRow.mk (event_auto_increment db) title user
                    description "" time])
              (users db) (books db)
              (event_auto_increment db + 1) (users_auto_increment db)
              (books_auto_increment db))).

(** [INSERT INTO users (name, surname, email, phone, password, isadmin)
     VALUES (%s, %s, %s, %s, %s, %s)]; [name] is [UNIQUE].  The values are
    stored as given: the widths of the columns are not part of this
    definition, and what it says of a payload holds of the server for the
    payloads that fit them ([fits_users_columns]). *)
Definition insert_user (name surname email phone password : string)
    (isadmin : bool) : io unit :=
  modify (INSERT_INTO_users name surname email phone password isadmin)
    (fun db =>
       if existsb (name_is name) (users db) then inl IntegrityError
       else
         inr (mkdb (event db)
                (users db ++
                   [UsersRow.mk (users_auto_increment db) name surname email
                      password phone isadmin])
                (books db)
                (event_auto_increment db) (users_auto_increment db + 1)
                (books_auto_increment db))).

Definition set_title_description (title description : string)
    (e : EventRow.t) : EventRow.t :=
  EventRow.mk (EventRow.id e) title (EventRow.user e) description
              (EventRow.members e) (EventRow.time e).

Definition set_time (time : Z) (e : EventRow.t) : EventRow.t :=
  EventRow.mk (EventRow.id e) (EventRow.title e) (EventRow.user e)
              (EventRow.description e) (EventRow.members e) time.

Definition set_members (members : string) (e : EventRow.t) : EventRow.t :=
  EventRow.mk (EventRow.id e) (EventRow.title e) (EventRow.user e)
              (EventRow.description e) members (EventRow.time e).

(** [UPDATE event SET ... WHERE id = %s;]: [f] on the rows whose id is [id] *)
Definition update_where (id : Z) (f : EventRow.t -> EventRow.t)
    (db : database) : database :=
  set_event (map (fun e => if event_id_is id e then f e else e) (event db)) db.

(** [UPDATE event SET title = %s, description = %s WHERE id = %s;] *)
Definition update_title_description (title description : string) (id : Z)
    : io unit :=
  modify (UPDATE_event_SET_title_description title description id)
    (fun db => inr (update_where id (set_title_description title description) db)).

(** [UPDATE event SET time = %s WHERE id = %s;] *)
Definition update_time (time id : Z) : io unit :=
  modify (UPDATE_event_SET_time time id)
    (fun db => inr (update_where id (set_time time) db)).

(** [UPDATE event SET members = %s WHERE id = %s;] *)
Definition update_members_column (members : string) (id : Z) : io unit :=
  modify (UPDATE_event_SET_members members id)
    (fun db => inr (update_where id (set_members members) db)).

(** [DELETE FROM event WHERE id = %s;] *)
Definition delete_from_event (id : Z) : io unit :=
  modify (DELETE_FROM_event_WHERE_id id)
    (fun db =>
       inr (set_event (filter (fun e => negb (event_id_is id e)) (event db)) db)).

Section StringKeys.
(** [WHERE id = %s] with a [str] parameter compares an [INT] column with a
    string literal; the server's conversion rule is a parameter. *)
Variable int_eq_str : Z -> string -> bool.

(** [SELECT * FROM books WHERE id = %s;] *)
Definition select_book_by_id (book_id : string) : io unit :=
  query (SELECT_all_FROM_books_WHERE_id book_id) BooksRow.columns
    (fun db =>
       map BooksRow.cells
           (filter (fun b => int_eq_str (BooksRow.id b) book_id) (books db))).

(** [SELECT * FROM event WHERE id = %s;] *)
Definition select_event_by_id (event_id : string) : io unit :=
  query (SELECT_all_FROM_event_WHERE_id event_id) EventRow.columns
    (fun db =>
       map EventRow.cells
           (filter (fun e => int_eq_str (EventRow.id e) event_id) (event db))).
End StringKeys.

(** ** Field validators of [User] *)

Definition double_quote : ascii := ascii_of_nat 34.

(** The special characters listed in [validate_password], in its order *)
Definition special_characters : string :=
  "!@#$%^&*()_-+=[]{}|\:;" ++ String double_quote "'<>,.?/~`".

(** [c in s] for a character [c] and a string [s] *)
Definition char_in (c : ascii) (s : string) : bool :=
  any (Ascii.eqb c) s.

Section Validators.
(** [str.isdigit], [str.islower] and [str.isupper] on one character *)
Variables isdigit islower isupper : ascii -> bool.

Definition check_letters (value : string) : raised + string :=
  if any isdigit value then
    inl (HTTPException HTTP_400_BAD_REQUEST
           "Fields 'name' and 'surname' must not contain numbers")
  else inr value.

(** The last two tests build an [HTTPException] and drop it: there is no
    [raise] in front of them. *)
Definition validate_password (v : string) : raised + string :=
  if negb (any islower v) then
    inl (HTTPException HTTP_400_BAD_REQUEST
           "Password must contain at least one lowercase letter")
  else if negb (any isupper v) then
    inl (HTTPException HTTP_400_BAD_REQUEST
           "Password must contain at least one uppercase letter")
  else
    let _ :=
      if negb (any isdigit v) then
        Some (HTTPException HTTP_400_BAD_REQUEST
                "Password must contain at least one digit")
      else None in
    let _ :=
      if negb (any (fun c => char_in c special_characters) v) then
        Some (HTTPException HTTP_400_BAD_REQUEST
                "Password must contain at least one special character")
      else None in
    inr v.
End Validators.

(** A validator called inside a handler *)
Definition call {A : Type} (r : raised + A) : io A :=
  fun c => (r, c).

(** ** Responses *)

Inductive response : Type :=
| JSONResponse (content : string) (status_code : Z)
| Returned (rows : list (list (string * value))).

(** ** Route handlers *)

Section BookHandler.
Variable strict_mode : bool.

(** [@app.post("/books/add/")] *)
Definition create_book (book : Book.t) : io response :=
  insert_book strict_mode (Book.title book) (Book.author book)
              (Book.description book) (Book.year book) (Book.count book) ;;
  commit ;;
  ret (JSONResponse "Book has been added." HTTP_201_CREATED).
End BookHandler.

(** [@app.post("/events/add/")] *)
Definition create_event (event : Event.t) : io response :=
  select_isadmin (Event.user event) ;;
  resp <- fetchone ;;
  (if isinstance_tuple resp then
     resp0 <- getitem resp 0 ;;
     if truthy resp0 then
       insert_event (Event.title event) (Event.user event)
                    (Event.description event) (Event.time event)
     else
       raise (HTTPException HTTP_403_FORBIDDEN
                "User hasn`t permissions for create event")
   else
     raise (HTTPException HTTP_404_NOT_FOUND "User not found")) ;;
  commit ;;
  ret (JSONResponse "Event has been added." HTTP_201_CREATED).

Section UserHandler.
Variables isdigit islower isupper : ascii -> bool.

(** [@app.post("/users/add/")] *)
Definition create_user (user : User.t) : io response :=
  except_IntegrityError
    (call (check_letters isdigit (User.name user)) ;;
     call (check_letters isdigit (User.surname user)) ;;
     call (validate_password isdigit islower isupper (User.password user)) ;;
     insert_user (User.name user) (User.surname user) (User.email user)
                 (User.phone user) (User.password user) (User.is_admin user) ;;
     commit ;;
     ret (JSONResponse "User has been added." HTTP_201_CREATED))
    (raise (HTTPException HTTP_400_BAD_REQUEST "User already exists")).
End UserHandler.

(** [@app.get("/books/get")] *)
Definition get_all_books : io response :=
  select_books ;;
  resp <- fetchall_dict ;;
  ret (Returned resp).

(** [@app.get("/event/get")] *)
Definition get_all_events : io response :=
  select_events ;;
  resp <- fetchall_dict ;;
  ret (Returned resp).

Section ByIdHandlers.
Variable int_eq_str : Z -> string -> bool.

(** [@app.get("/books/get/{book_id}")]; [book_id] carries no annotation *)
Definition get_for_id_book (book_id : string) : io response :=
  select_book_by_id int_eq_str book_id ;;
  resp <- fetchall_dict ;;
  ret (Returned resp).

(** [@app.get("/event/get/{event_id}")]; [event_id] carries no annotation *)
Definition get_for_id_event (event_id : string) : io response :=
  select_event_by_id int_eq_str event_id ;;
  resp <- fetchall_dict ;;
  ret (Returned resp).
End ByIdHandlers.

(** [@app.put("/event/update/{id}")] *)
Definition update_event (id : Z) (event : EventEdit.t) : io response :=
  select_isadmin (EventEdit.user event) ;;
  resp <- fetchone ;;
  if isinstance_tuple resp then
    resp0 <- getitem resp 0 ;;
    if truthy resp0 then
      select_event_id id ;;
      check <- fetchone ;;
      if isinstance_tuple check then
        update_title_description (EventEdit.title event)
                                 (EventEdit.description event) id ;;
        commit ;;
        ret (JSONResponse "Event has been updated." HTTP_200_OK)
      else
        raise (HTTPException 404 "Event not found")
    else
      raise (HTTPException HTTP_403_FORBIDDEN
               "User hasn`t permissions for edit event")
  else
    raise (HTTPException HTTP_404_NOT_FOUND "User not found").

(** [@app.patch("/event/update/{id}/reschedule")] *)
Definition update_date (id : Z) (user : string) (datetime_ : Z) : io response :=
  select_isadmin user ;;
  resp <- fetchone ;;
  if isinstance_tuple resp then
    resp0 <- getitem resp 0 ;;
    if truthy resp0 then
      select_event_id id ;;
      check <- fetchone ;;
      if isinstance_tuple check then
        update_time datetime_ id ;;
        commit ;;
        ret (JSONResponse "Event has been updated." HTTP_200_OK)
      else
        raise (HTTPException 404 "Event not found")
    else
      raise (HTTPException HTTP_403_FORBIDDEN
               "User hasn`t permissions for edit event")
  else
    raise (HTTPException HTTP_404_NOT_FOUND "User not found").

(** [@app.patch("/event/update/{id}/rsvp")]; the [print(check)] of the source
    writes to the standard output only and is left out. *)
Definition update_members (id : Z) (user : string) (member_id : Z) : io response :=
  select_isadmin user ;;
  resp <- fetchone ;;
  if isinstance_tuple resp then
    resp0 <- getitem resp 0 ;;
    if truthy resp0 then
      select_members id ;;
      check <- fetchone ;;
      if isinstance_tuple check then
        select_user_id member_id ;;
        answer <- fetchone ;;
        if isinstance_tuple answer then
          check0 <- getitem check 0 ;;
          let list_ := map VStr (split "," (format check0)) in
          answer0 <- getitem answer 0 ;;
          if negb (py_in answer0 list_) then
            check0' <- getitem check 0 ;;
            update_members_column
              (format check0' ++ str_of_int member_id ++ ",") id ;;
            commit ;;
            ret (JSONResponse "Member has been added." HTTP_201_CREATED)
          else
            raise (HTTPException HTTP_409_CONFLICT "Member already registed")
        else
          raise (HTTPException HTTP_404_NOT_FOUND "Member not found")
      else
        raise (HTTPException HTTP_404_NOT_FOUND "Event not found")
    else
      raise (HTTPException HTTP_403_FORBIDDEN
               "User hasn`t permissions for edit event")
  else
    raise (HTTPException HTTP_404_NOT_FOUND "User not found").

(** [@app.delete("/event/delete/{event_id}")]; the user row is read with
    [fetchall], not with [fetchone] as in the other handlers. *)
Definition delete_event (event_id : Z) (user : string) : io response :=
  select_isadmin user ;;
  resp <- fetchall ;;
  if isinstance_tuple resp then
    resp0 <- getitem resp 0 ;;
    if truthy resp0 then
      select_event_id event_id ;;
      check <- fetchone ;;
      if isinstance_tuple check then
        delete_from_event event_id ;;
        commit ;;
        ret (JSONResponse "Event has been deleted." HTTP_201_CREATED)
      else
        raise (HTTPException 404 "Task not found")
    else
      raise (HTTPException HTTP_403_FORBIDDEN
               "User hasn`t permissions for create event")
  else
    raise (HTTPException HTTP_404_NOT_FOUND "User not found").

(** ** Serving a request *)

Record outcome : Type := mkoutcome
  { reply : raised + response;       (* what the handler returned or raised *)
    store : database;                (* the committed tables afterwards *)
    statements : list statement }.   (* the statements sent, oldest first *)

(** One request: a fresh connection, the handler, and what stays committed
    when the connection is dropped. *)
Definition serve (handler : io response) (db : database) : outcome :=
  let (r, c) := handler (get_mysql_connection db) in
  mkoutcome r (committed c) (executed c).

(** The status line the client receives.  [HTTPException] and [JSONResponse]
    carry their own; a returned value is sent with 200; the application
    registers no exception handler, so a failed request validation is answered
    with FastAPI's 422 and any other exception with 500. *)
Definition status_of (r : raised + response) : Z :=
  match r with
  | inr (JSONResponse _ status_code) => status_code
  | inr (Returned _) => 200
  | inl (HTTPException status_code _) => status_code
  | inl RequestValidationError => 422
  | inl IntegrityError => 500
  | inl DataError => 500
  | inl IndexError => 500
  | inl TypeError => 500
  end.

(** The routes that change the [event] table *)
Inductive request : Type :=
| POST_events_add (event : Event.t)
| PUT_event_update (id : Z) (event : EventEdit.t)
| PATCH_event_update_reschedule (id : Z) (user : string) (datetime_ : Z)
| PATCH_event_update_rsvp (id : Z) (user : string) (member_id : Z)
| DELETE_event_delete (event_id : Z) (user : string).

Definition handler_of (r : request) : io response :=
  match r with
  | POST_events_add event => create_event event
  | PUT_event_update id event => update_event id event
  | PATCH_event_update_reschedule id user datetime_ => update_date id user datetime_
  | PATCH_event_update_rsvp id user member_id => update_members id user member_id
  | DELETE_event_delete event_id user => delete_event event_id user
  end.

(** The user on whose behalf a request acts *)
Definition acting_user (r : request) : string :=
  match r with
  | POST_events_add event => Event.user event
  | PUT_event_update _ event => EventEdit.user event
  | PATCH_event_update_reschedule _ user _ => user
  | PATCH_event_update_rsvp _ user _ => user
  | DELETE_event_delete _ user => user
  end.

(** The event a request targets; a creation targets none *)
Definition target_event (r : request) : option Z :=
  match r with
  | POST_events_add _ => None
  | PUT_event_update id _ => Some id
  | PATCH_event_update_reschedule id _ _ => Some id
  | PATCH_event_update_rsvp id _ _ => Some id
  | DELETE_event_delete event_id _ => Some event_id
  end.

Definition max_length (n : nat) (s : string) : bool :=
  Nat.leb (String.length s) n.

(** The field constraints FastAPI checks, at instant [now], before it calls
    the handler *)
Definition validate (now : Z) (r : request) : bool :=
  match r with
  | POST_events_add event =>
      max_length 50 (Event.title event) && max_length 50 (Event.user event)
      && max_length 200 (Event.description event)
      && FutureDatetime now (Event.time event)
  | PUT_event_update _ event =>
      max_length 50 (EventEdit.title event)
      && max_length 50 (EventEdit.user event)
      && max_length 200 (EventEdit.description event)
  | PATCH_event_update_reschedule _ _ datetime_ => FutureDatetime now datetime_
  | PATCH_event_update_rsvp _ _ _ => true
  | DELETE_event_delete _ _ => true
  end.

(** The application on one request received at instant [now] *)
Definition app (now : Z) (r : request) (db : database) : outcome :=
  if validate now r then serve (handler_of r) db
  else mkoutcome (inl RequestValidationError) db [].

(** A request on a route that has a path parameter, the parameter being the
    text of its path segment *)
Inductive path_request : Type :=
| GET_books_get_id (book_id : string)
| GET_event_get_id (event_id : string)
| PUT_event_update_id (id : string) (event : EventEdit.t)
| PATCH_event_update_id_reschedule (id : string) (user : string)
    (datetime_ : Z)
| PATCH_event_update_id_rsvp (id : string) (user : string) (member_id : Z)
| DELETE_event_delete_id (event_id : string) (user : string).

Section PathParameters.
(** The conversion FastAPI applies to the text of a parameter annotated
    [int]; [None] when the text is no integer *)
Variable int_of_str : string -> option Z.
Variable int_eq_str : Z -> string -> bool.

(** A parameter annotated [int] ([id: int], [event_id: int]): the request is
    rejected when the conversion fails *)
Definition with_int (text : string) (k : Z -> outcome) (db : database)
    : outcome :=
  match int_of_str text with
  | Some n => k n
  | None => mkoutcome (inl RequestValidationError) db []
  end.

(** The application on a request with a path parameter.  [book_id] and
    [event_id] of the two [GET] handlers carry no annotation and reach the
    handler as the text they are; the others are annotated [int]. *)
Definition route (now : Z) (r : path_request) (db : database) : outcome :=
  match r with
  | GET_books_get_id book_id => serve (get_for_id_book int_eq_str book_id) db
  | GET_event_get_id event_id => serve (get_for_id_event int_eq_str event_id) db
  | PUT_event_update_id id event =>
      with_int id (fun n => app now (PUT_event_update n event) db) db
  | PATCH_event_update_id_reschedule id user datetime_ =>
      with_int id
        (fun n => app now (PATCH_event_update_reschedule n user datetime_) db)
        db
  | PATCH_event_update_id_rsvp id user member_id =>
      with_int id
        (fun n => app now (PATCH_event_update_rsvp n user member_id) db) db
  | DELETE_event_delete_id event_id user =>
      with_int event_id (fun n => app now (DELETE_event_delete n user) db) db
  end.
End PathParameters.

(** ** Reading the store *)

(** The row [SELECT ... FROM users WHERE name = %s] yields first *)
Definition user_named (name : string) (db : database) : option UsersRow.t :=
  find (name_is name) (users db).

Definition event_exists (id : Z) (db : database) : bool :=
  existsb (event_id_is id) (event db).

(** The members field read as the list of identifiers it joins *)
Definition members_list (members : string) : list string :=
  split "," members.

(** The handlers that read the user row with [fetchone] *)
Definition reads_user_with_fetchone (r : request) : bool :=
  match r with
  | DELETE_event_delete _ _ => false
  | _ => true
  end.

(** The statement a handler sends right after a passed authorization *)
Definition first_statement_after_authorization (r : request) : statement :=
  match r with
  | POST_events_add event =>
      INSERT_INTO_event (Event.title event) (Event.user event)
        (Event.description event) (Event.time event)
  | PUT_event_update id _ => SELECT_id_FROM_event_WHERE_id id
  | PATCH_event_update_reschedule id _ _ => SELECT_id_FROM_event_WHERE_id id
  | PATCH_event_update_rsvp id _ _ => SELECT_members_FROM_event_WHERE_id id
  | DELETE_event_delete event_id _ => SELECT_id_FROM_event_WHERE_id event_id
  end.

(** What an edit leaves of a row [old] in the row [new] that replaces it *)
Definition edited (id : Z) (event : EventEdit.t) (old new : EventRow.t) : Prop :=
  EventRow.id new = EventRow.id old
  /\ EventRow.user new = EventRow.user old
  /\ EventRow.time new = EventRow.time old
  /\ EventRow.members new = EventRow.members old
  /\ (EventRow.id old = id ->
      EventRow.title new = EventEdit.title event
      /\ EventRow.description new = EventEdit.description event)
  /\ (EventRow.id old <> id -> new = old).

(** ** A small store for the examples *)

Module Scenario.
Definition alice : UsersRow.t :=
  UsersRow.mk 1 "alice" "Liddell" "alice@example.com" "Secret" "+380501234567" true.
Definition bob : UsersRow.t :=
  UsersRow.mk 2 "bob" "Builder" "bob@example.com" "Hidden" "+380501234568" false.
Definition meetup : EventRow.t :=
  EventRow.mk 1 "Meetup" "alice" "Monthly meetup" "" 2000.
Definition db0 : database := mkdb [meetup] [alice; bob] [] 2 3 1.

(** ASCII instances of the character classes *)
Definition between (lo hi : nat) (c : ascii) : bool :=
  Nat.leb lo (nat_of_ascii c) && Nat.leb (nat_of_ascii c) hi.
Definition isdigit : ascii -> bool := between 48 57.
Definition isupper : ascii -> bool := between 65 90.
Definition islower : ascii -> bool := between 97 122.

(** An identifier matches the string that is its decimal text *)
Definition int_eq_str (id : Z) (s : string) : bool :=
  String.eqb (str_of_int id) s.
End Scenario.

(** ** Notions used by the further properties *)

(** The members field after the RSVPs of [ids], oldest first, on the empty
    field that [create_event] stores: each RSVP writes
    [f"{check[0]}{member_id},"]. *)
Definition members_after (ids : list Z) : string :=
  fold_left (fun field member_id => field ++ str_of_int member_id ++ ",")
    ids "".

(** What a reschedule leaves of a row [old] in the row [new] that replaces it *)
Definition rescheduled (id datetime_ : Z) (old new : EventRow.t) : Prop :=
  EventRow.id new = EventRow.id old
  /\ EventRow.title new = EventRow.title old
  /\ EventRow.user new = EventRow.user old
  /\ EventRow.description new = EventRow.description old
  /\ EventRow.members new = EventRow.members old
  /\ (EventRow.id old = id -> EventRow.time new = datetime_)
  /\ (EventRow.id old <> id -> new = old).

(** The primary key of [event]: no identifier twice, and every identifier
    below the next [AUTO_INCREMENT] value *)
Definition event_keys_sound (db : database) : Prop :=
  NoDup (map EventRow.id (event db))
  /\ Forall (fun e => EventRow.id e < event_auto_increment db) (event db).

(** [UNIQUE] on [users.name] *)
Definition user_names_unique (db : database) : Prop :=
  NoDup (map UsersRow.name (users db)).

(** The row [create_event] stores for [event] under the identifier [id] *)
Definition stored_event (id : Z) (event : Event.t) : EventRow.t :=
  EventRow.mk id (Event.title event) (Event.user event)
    (Event.description event) "" (Event.time event).

(** The row [create_user] stores for [user] under the identifier [id] *)
Definition stored_user (id : Z) (user : User.t) : UsersRow.t :=
  UsersRow.mk id (User.name user) (User.surname user) (User.email user)
    (User.password user) (User.phone user) (User.is_admin user).

(** A row as a [DictCursor] returns it *)
Definition book_dict (b : BooksRow.t) : list (string * value) :=
  combine BooksRow.columns (BooksRow.cells b).

Definition event_dict (e : EventRow.t) : list (string * value) :=
  combine EventRow.columns (EventRow.cells e).

(** The requests that rewrite rows of [event] in place *)
Definition updates_in_place (r : request) : bool :=
  match r with
  | PUT_event_update _ _ => true
  | PATCH_event_update_reschedule _ _ _ => true
  | PATCH_event_update_rsvp _ _ _ => true
  | _ => false
  end.

(** The store after the RSVPs of [ids], oldest first, each sent by [user] for
    the event [id] *)
Definition rsvp_all (id : Z) (user : string) (ids : list Z) (db : database)
    : database :=
  fold_left
    (fun d member_id => store (serve (update_members id user member_id) d))
    ids db.

(** The members field of the row that [SELECT members FROM event WHERE id]
    yields first *)
Definition members_of (id : Z) (db : database) : option string :=
  option_map EventRow.members (find (event_id_is id) (event db)).

(** The payload fits the [VARCHAR] columns of [users] *)
Definition fits_users_columns (user : User.t) : bool :=
  max_length 50 (User.name user) && max_length 50 (User.surname user)
  && max_length 50 (User.email user) && max_length 20 (User.password user).

Section PassesValidators.
Variables isdigit islower isupper : ascii -> bool.

(** The payload gets through [check_letters] on name and surname and through
    the two tests of [validate_password] that raise *)
Definition passes_validators (user : User.t) : bool :=
  negb (any isdigit (User.name user))
  && negb (any isdigit (User.surname user))
  && any islower (User.password user)
  && any isupper (User.password user).
End PassesValidators.

Module Samples.
Definition dune : Book.t :=
  Book.mk "Dune" "Frank Herbert" "Desert planet" 3 1965.
Definition carol : User.t :=
  User.mk "carol" "Danvers" "carol@example.com" "Abcde" "+380501234560" true.
Definition picnic : Event.t := Event.mk "Picnic" "alice" "Outdoors" 5000.

(** A conversion to [int] that accepts the decimal numerals *)
Definition int_of_str (text : string) : option Z :=
  option_map Z.of_int (NilZero.int_of_string text).
End Samples.

(** ** Properties *)

Lemma find_none_filter {A : Type} (p : A -> bool) (l : list A) :
  find p l = None -> filter p l = [].
Proof.
  induction l as [|x l IH]; simpl; [reflexivity|].
  destruct (p x); [discriminate | exact IH].
Qed.

Lemma find_some_filter {A : Type} (p : A -> bool) (l : list A) (x : A) :
  find p l = Some x -> exists rest, filter p l = x :: rest.
Proof.
  induction l as [|y l IH]; simpl; [discriminate|].
  destruct (p y).
  - intros [= ->]. eexists. reflexivity.
  - exact IH.
Qed.

Lemma existsb_true_filter {A : Type} (p : A -> bool) (l : list A) :
  existsb p l = true -> exists x rest, filter p l = x :: rest.
Proof.
  induction l as [|x l IH]; simpl; [discriminate|].
  destruct (p x); simpl.
  - intros _. eexists. eexists. reflexivity.
  - exact IH.
Qed.

(** An [int] is never found in a list of [str] *)
Lemma py_in_int_strs (n : Z) (l : list string) :
  py_in (VInt n) (map VStr l) = false.
Proof.
  unfold py_in. induction l as [|s l IH]; simpl; [reflexivity | exact IH].
Qed.

Lemma Forall2_map_pointwise {A : Type} (P : A -> A -> Prop) (f : A -> A)
    (l : list A) :
  (forall x, P x (f x)) -> Forall2 P l (map f l).
Proof.
  intros H. induction l as [|x l IH]; simpl; constructor; auto.
Qed.

(** *** The handlers on the example store *)

Example special_characters_count : String.length special_characters = 32%nat.
Proof. reflexivity. Qed.

Example split_members_field : split "," "7,8," = ["7"; "8"; ""].
Proof. reflexivity. Qed.

Example split_empty_members_field : split "," "" = [""].
Proof. reflexivity. Qed.

Example administrator_edits_event :
  serve (update_event 1 (EventEdit.mk "Picnic" "alice" "Outdoors")) Scenario.db0
  = mkoutcome (inr (JSONResponse "Event has been updated." 200))
      (set_event [EventRow.mk 1 "Picnic" "alice" "Outdoors" "" 2000] Scenario.db0)
      [SELECT_isadmin_FROM_users_WHERE_name "alice";
       SELECT_id_FROM_event_WHERE_id 1;
       UPDATE_event_SET_title_description "Picnic" "Outdoors" 1; COMMIT].
Proof. reflexivity. Qed.

Example administrator_reschedules_event :
  app 1000 (PATCH_event_update_reschedule 1 "alice" 2500) Scenario.db0
  = mkoutcome (inr (JSONResponse "Event has been updated." 200))
      (set_event [EventRow.mk 1 "Meetup" "alice" "Monthly meetup" "" 2500]
         Scenario.db0)
      [SELECT_isadmin_FROM_users_WHERE_name "alice";
       SELECT_id_FROM_event_WHERE_id 1; UPDATE_event_SET_time 2500 1; COMMIT].
Proof. reflexivity. Qed.

Example non_administrator_cannot_edit :
  serve (update_event 1 (EventEdit.mk "Picnic" "bob" "Outdoors")) Scenario.db0
  = mkoutcome
      (inl (HTTPException 403 "User hasn`t permissions for edit event"))
      Scenario.db0 [SELECT_isadmin_FROM_users_WHERE_name "bob"].
Proof. reflexivity. Qed.

Example administrator_deletes_event :
  reply (serve (delete_event 1 "alice") Scenario.db0)
  = inr (JSONResponse "Event has been deleted." 201).
Proof. reflexivity. Qed.

Example new_user_is_stored :
  users (store (serve (create_user Scenario.isdigit Scenario.islower
                         Scenario.isupper
                         (User.mk "carol" "Danvers" "carol@example.com" "Abcde"
                            "+380501234560" false))
                  Scenario.db0))
  = [Scenario.alice; Scenario.bob;
     UsersRow.mk 3 "carol" "Danvers" "carol@example.com" "Abcde"
       "+380501234560" false].
Proof. reflexivity. Qed.

Example name_with_digit_is_rejected :
  reply (serve (create_user Scenario.isdigit Scenario.islower Scenario.isupper
                  (User.mk "carol7" "Danvers" "carol@example.com" "Abcde"
                     "+380501234560" false))
           Scenario.db0)
  = inl (HTTPException 400
           "Fields 'name' and 'surname' must not contain numbers").
Proof. reflexivity. Qed.

(** Unfolds one handler down to the tables it reads *)
Ltac run_handler :=
  unfold serve, create_event, update_event, update_date, update_members,
    delete_event, select_isadmin, select_event_id, select_members,
    select_user_id, insert_event, update_title_description, update_time,
    update_members_column, delete_from_event, bind, ret, raise, query, modify,
    commit, fetchone, fetchall, getitem, get_mysql_connection;
  simpl.

(** Create, edit, reschedule and RSVP answer 404 when no user row matches the
    acting user, and send nothing but the authorization query. *)
Lemma unknown_user_not_found (r : request) (db : database) :
  reads_user_with_fetchone r = true ->
  user_named (acting_user r) db = None ->
  serve (handler_of r) db =
    mkoutcome (inl (HTTPException 404 "User not found")) db
      [SELECT_isadmin_FROM_users_WHERE_name (acting_user r)].
Proof.
  intros Hr Hu. apply find_none_filter in Hu.
  destruct r; simpl in *; try discriminate; run_handler; rewrite Hu; reflexivity.
Qed.

(** Create, edit, reschedule and RSVP answer 403 to a user whose
    administrator flag is false, change nothing and send nothing but the
    authorization query. *)
Lemma non_admin_forbidden (r : request) (db : database) (u : UsersRow.t) :
  reads_user_with_fetchone r = true ->
  user_named (acting_user r) db = Some u ->
  UsersRow.isadmin u = false ->
  exists detail,
    serve (handler_of r) db =
      mkoutcome (inl (HTTPException 403 detail)) db
        [SELECT_isadmin_FROM_users_WHERE_name (acting_user r)].
Proof.
  intros Hr Hu Ha. apply find_some_filter in Hu as [rest Hu].
  destruct r; simpl in *; try discriminate; run_handler; rewrite Hu; simpl;
    rewrite Ha; simpl; eexists; reflexivity.
Qed.

(** Create, edit, reschedule and RSVP go on to their next statement when the
    administrator flag of the acting user is true. *)
Lemma admin_proceeds (r : request) (db : database) (u : UsersRow.t) :
  reads_user_with_fetchone r = true ->
  user_named (acting_user r) db = Some u ->
  UsersRow.isadmin u = true ->
  exists rest,
    statements (serve (handler_of r) db) =
      SELECT_isadmin_FROM_users_WHERE_name (acting_user r)
        :: first_statement_after_authorization r :: rest.
Proof.
  intros Hr Hu Ha. apply find_some_filter in Hu as [rest Hu].
  destruct r; simpl in *; try discriminate; run_handler; rewrite Hu; simpl;
    rewrite Ha; simpl.
  - eexists; reflexivity.
  - destruct (filter (event_id_is id) (event db)); simpl; eexists; reflexivity.
  - destruct (filter (event_id_is id) (event db)); simpl; eexists; reflexivity.
  - destruct (filter (event_id_is id) (event db)); simpl;
      [eexists; reflexivity|].
    destruct (filter (fun u0 => UsersRow.id u0 =? member_id) (users db)); simpl;
      [eexists; reflexivity|].
    rewrite py_in_int_strs; simpl. eexists; reflexivity.
Qed.

(** X22. In create, edit, reschedule and RSVP an event is looked up only for
    an acting user whose administrator flag is true. *)
Lemma lookup_only_after_authorization (r : request) (db : database) (id : Z) :
  reads_user_with_fetchone r = true ->
  In (SELECT_id_FROM_event_WHERE_id id) (statements (serve (handler_of r) db))
  \/ In (SELECT_members_FROM_event_WHERE_id id)
        (statements (serve (handler_of r) db)) ->
  exists u,
    user_named (acting_user r) db = Some u /\ UsersRow.isadmin u = true.
Proof.
  intros Hr Hin.
  destruct (user_named (acting_user r) db) as [u|] eqn:Hu.
  - destruct (UsersRow.isadmin u) eqn:Ha; [exists u; auto|].
    destruct (non_admin_forbidden r db u Hr Hu Ha) as [detail E].
    rewrite E in Hin; simpl in Hin.
    destruct Hin as [[H|[]]|[H|[]]]; discriminate.
  - rewrite (unknown_user_not_found r db Hr Hu) in Hin; simpl in Hin.
    destruct Hin as [[H|[]]|[H|[]]]; discriminate.
Qed.

(** X23. [delete_event] never answers 403: the first element of what
    [fetchall] returns is a row, and a row is a non-empty tuple. *)
Lemma delete_event_never_forbidden (event_id : Z) (user : string)
    (db : database) :
  status_of (reply (serve (delete_event event_id user) db)) <> 403.
Proof.
  run_handler.
  destruct (filter (name_is user) (users db)); simpl; [discriminate|].
  destruct (filter (event_id_is event_id) (event db)); simpl; discriminate.
Qed.

(** X24. [delete_event] removes an existing event for every stored user,
    whatever the administrator flag. *)
Lemma delete_event_any_stored_user (event_id : Z) (user : string)
    (db : database) (u : UsersRow.t) :
  user_named user db = Some u ->
  event_exists event_id db = true ->
  serve (delete_event event_id user) db =
    mkoutcome (inr (JSONResponse "Event has been deleted." 201))
      (set_event (filter (fun e => negb (event_id_is event_id e)) (event db)) db)
      [SELECT_isadmin_FROM_users_WHERE_name user;
       SELECT_id_FROM_event_WHERE_id event_id;
       DELETE_FROM_event_WHERE_id event_id; COMMIT].
Proof.
  intros Hu He. apply find_some_filter in Hu as [rest Hu].
  apply existsb_true_filter in He as (e & rest' & He).
  run_handler. rewrite Hu; simpl. rewrite He; simpl. reflexivity.
Qed.

(** X25. [update_members] never answers 409: the identifier read from [users]
    is an [int] and the elements of the split members field are [str]. *)
Lemma update_members_never_conflict (id : Z) (user : string) (member_id : Z)
    (db : database) :
  status_of (reply (serve (update_members id user member_id) db)) <> 409.
Proof.
  run_handler.
  destruct (filter (name_is user) (users db)) as [|u us]; simpl;
    [discriminate|].
  destruct (UsersRow.isadmin u); simpl; [|discriminate].
  destruct (filter (event_id_is id) (event db)); simpl; [discriminate|].
  destruct (filter (fun u0 => UsersRow.id u0 =? member_id) (users db)); simpl;
    [discriminate|].
  rewrite py_in_int_strs; simpl. discriminate.
Qed.

(** X26. [update_members] appends the identifier for an administrator, an
    existing event and an existing member, whether or not the identifier is
    already in the members field. *)
Lemma update_members_always_appends (id : Z) (user : string) (member_id : Z)
    (db : database) (u : UsersRow.t) (e : EventRow.t) :
  user_named user db = Some u ->
  UsersRow.isadmin u = true ->
  find (event_id_is id) (event db) = Some e ->
  existsb (fun m => UsersRow.id m =? member_id) (users db) = true ->
  serve (update_members id user member_id) db =
    mkoutcome (inr (JSONResponse "Member has been added." 201))
      (update_where id
         (set_members (EventRow.members e ++ str_of_int member_id ++ ",")) db)
      [SELECT_isadmin_FROM_users_WHERE_name user;
       SELECT_members_FROM_event_WHERE_id id;
       SELECT_id_FROM_users_WHERE_id member_id;
       UPDATE_event_SET_members
         (EventRow.members e ++ str_of_int member_id ++ ",") id;
       COMMIT].
Proof.
  intros Hu Ha He Hm.
  apply find_some_filter in Hu as [us Hu].
  apply find_some_filter in He as [es He].
  apply existsb_true_filter in Hm as (m & ms & Hm).
  run_handler. rewrite Hu; simpl. rewrite Ha; simpl. rewrite He; simpl.
  rewrite Hm; simpl. rewrite py_in_int_strs; simpl. reflexivity.
Qed.

(** C1. Every mutating event operation answers 404 to an unknown acting user,
    403 without any change to a user whose administrator flag is false, and
    proceeds for an administrator.  Create, edit, reschedule and RSVP do
    ([unknown_user_not_found], [non_admin_forbidden], [admin_proceeds]);
    delete does not: for the stored user bob, whose flag is false, it removes
    event 1 and answers 201, and for the unknown user carol it ends in an
    [IndexError], which is answered with 500. *)
Theorem delete_event_skips_authorization :
  user_named "bob" Scenario.db0 = Some Scenario.bob
  /\ UsersRow.isadmin Scenario.bob = false
  /\ serve (handler_of (DELETE_event_delete 1 "bob")) Scenario.db0 =
       mkoutcome (inr (JSONResponse "Event has been deleted." 201))
         (set_event [] Scenario.db0)
         [SELECT_isadmin_FROM_users_WHERE_name "bob";
          SELECT_id_FROM_event_WHERE_id 1;
          DELETE_FROM_event_WHERE_id 1; COMMIT]
  /\ user_named "carol" Scenario.db0 = None
  /\ serve (handler_of (DELETE_event_delete 1 "carol")) Scenario.db0 =
       mkoutcome (inl IndexError) Scenario.db0
         [SELECT_isadmin_FROM_users_WHERE_name "carol"]
  /\ status_of (inl IndexError) = 500.
Proof. repeat split; reflexivity. Qed.

(** C2. An RSVP for a member already in the members field of the event
    answers 409 and leaves the field unchanged; the same RSVP sent twice
    answers 201 and then 409.  The handler does not: with administrator alice,
    event 1 and member 2, the first RSVP answers 201 and stores ["2,"], whose
    list contains ["2"], and the second answers 201 again and stores
    ["2,2,"]. *)
Theorem rsvp_twice_is_accepted_twice :
  let first := serve (update_members 1 "alice" 2) Scenario.db0 in
  let second := serve (update_members 1 "alice" 2) (store first) in
  status_of (reply first) = 201
  /\ map EventRow.members (event (store first)) = ["2,"]
  /\ In (str_of_int 2) (members_list "2,")
  /\ reply second = inr (JSONResponse "Member has been added." 201)
  /\ map EventRow.members (event (store second)) = ["2,2,"].
Proof. repeat split; try reflexivity. left; reflexivity. Qed.

(** C3, as stated: a reschedule whose [datetime_] is not in the future is
    answered with status 400.  At instant 3000 the request for instant 2500
    is answered with another status. *)
Lemma reschedule_in_the_past_is_not_400 :
  2500 <= 3000
  /\ status_of
       (reply (app 3000 (PATCH_event_update_reschedule 1 "alice" 2500)
                 Scenario.db0)) <> 400.
Proof. split; [lia | discriminate]. Qed.

(** C3, amended. A reschedule whose [datetime_] is not strictly after the
    instant of validation is rejected by the request validation, answered with
    status 422, before any statement is sent, and the store is unchanged. *)
Theorem reschedule_not_future_is_rejected (now id : Z) (user : string)
    (datetime_ : Z) (db : database) :
  datetime_ <= now ->
  app now (PATCH_event_update_reschedule id user datetime_) db =
    mkoutcome (inl RequestValidationError) db []
  /\ status_of
       (reply (app now (PATCH_event_update_reschedule id user datetime_) db))
     = 422.
Proof.
  intros H. unfold app, validate, FutureDatetime.
  destruct (now <? datetime_) eqn:E.
  - apply Z.ltb_lt in E. lia.
  - split; reflexivity.
Qed.

Lemma reschedule_not_future_is_rejected_witness :
  2500 <= 3000
  /\ app 3000 (PATCH_event_update_reschedule 1 "alice" 2500) Scenario.db0 =
       mkoutcome (inl RequestValidationError) Scenario.db0 [].
Proof.
  split; [lia|].
  apply (reschedule_not_future_is_rejected 3000 1 "alice" 2500 Scenario.db0).
  lia.
Defined.

(** C4. A mutating event operation by a stored user whose administrator flag
    is false, on an event that does not exist, answers 403 and looks no event
    up.  Edit, reschedule and RSVP do ([non_admin_forbidden],
    [lookup_only_after_authorization]); delete does not: for bob, whose flag
    is false, and the missing event 999 it sends the event lookup and answers
    with the 404 of the missing event. *)
Theorem delete_event_locates_without_authorization :
  user_named "bob" Scenario.db0 = Some Scenario.bob
  /\ UsersRow.isadmin Scenario.bob = false
  /\ event_exists 999 Scenario.db0 = false
  /\ serve (handler_of (DELETE_event_delete 999 "bob")) Scenario.db0 =
       mkoutcome (inl (HTTPException 404 "Task not found")) Scenario.db0
         [SELECT_isadmin_FROM_users_WHERE_name "bob";
          SELECT_id_FROM_event_WHERE_id 999].
Proof. repeat split; reflexivity. Qed.

(** C5. [validate_password] raises a 400 error for every password without a
    lowercase letter and for every password without an uppercase letter; a
    password with both is returned unchanged, with or without a digit or a
    special character. *)
Theorem validate_password_checks_case_only
    (isdigit islower isupper : ascii -> bool) (v : string) :
  (any islower v = false ->
   exists detail,
     validate_password isdigit islower isupper v =
       inl (HTTPException 400 detail))
  /\ (any isupper v = false ->
      exists detail,
        validate_password isdigit islower isupper v =
          inl (HTTPException 400 detail))
  /\ (any islower v = true -> any isupper v = true ->
      validate_password isdigit islower isupper v = inr v).
Proof.
  unfold validate_password.
  destruct (any islower v), (any isupper v); simpl;
    repeat split; intros; try discriminate; try (eexists; reflexivity);
    reflexivity.
Qed.

Lemma validate_password_checks_case_only_witness :
  any Scenario.isdigit "Abcde" = false
  /\ any (fun c => char_in c special_characters) "Abcde" = false
  /\ validate_password Scenario.isdigit Scenario.islower Scenario.isupper
       "Abcde" = inr "Abcde"
  /\ (exists detail,
        validate_password Scenario.isdigit Scenario.islower Scenario.isupper
          "abc1!" = inl (HTTPException 400 detail))
  /\ (exists detail,
        validate_password Scenario.isdigit Scenario.islower Scenario.isupper
          "ABC1!" = inl (HTTPException 400 detail)).
Proof.
  split; [reflexivity|]. split; [reflexivity|]. split; [|split].
  - apply (validate_password_checks_case_only Scenario.isdigit
             Scenario.islower Scenario.isupper "Abcde"); reflexivity.
  - apply (proj1 (proj2 (validate_password_checks_case_only Scenario.isdigit
                           Scenario.islower Scenario.isupper "abc1!")));
      reflexivity.
  - apply (proj1 (validate_password_checks_case_only Scenario.isdigit
                    Scenario.islower Scenario.isupper "ABC1!"));
      reflexivity.
Defined.

(** C6. After a successful edit of event [id] the rows of [event] are the
    former rows, in order, where the rows with this id have the new title and
    description and their former user, time and members, and every other row
    is unchanged; [users] and [books] are unchanged. *)
Theorem update_event_overwrites_title_and_description_only
    (id : Z) (event_ : EventEdit.t) (db : database) :
  status_of (reply (serve (update_event id event_) db)) = 200 ->
  Forall2 (edited id event_) (event db)
    (event (store (serve (update_event id event_) db)))
  /\ users (store (serve (update_event id event_) db)) = users db
  /\ books (store (serve (update_event id event_) db)) = books db.
Proof.
  run_handler.
  destruct (filter (name_is (EventEdit.user event_)) (users db)) as [|u us];
    simpl; [discriminate|].
  destruct (UsersRow.isadmin u); simpl; [|discriminate].
  destruct (filter (event_id_is id) (event db)); simpl; [discriminate|].
  intros _. split; [|split; reflexivity].
  apply Forall2_map_pointwise. intros old. unfold edited, event_id_is.
  destruct (EventRow.id old =? id) eqn:E; simpl.
  - repeat split; try reflexivity. apply Z.eqb_eq in E. contradiction.
  - apply Z.eqb_neq in E. repeat split; try reflexivity; contradiction.
Qed.

Lemma update_event_overwrites_title_and_description_only_witness :
  status_of
    (reply (serve (update_event 1 (EventEdit.mk "Picnic" "alice" "Outdoors"))
              Scenario.db0)) = 200
  /\ Forall2 (edited 1 (EventEdit.mk "Picnic" "alice" "Outdoors"))
       (event Scenario.db0)
       (event (store (serve (update_event 1
                               (EventEdit.mk "Picnic" "alice" "Outdoors"))
                        Scenario.db0))).
Proof.
  split; [reflexivity|].
  apply (update_event_overwrites_title_and_description_only 1
           (EventEdit.mk "Picnic" "alice" "Outdoors") Scenario.db0).
  reflexivity.
Defined.

(** C7. [GET /event/get/{event_id}] for an identifier that matches no row of
    [event] answers 200 with an empty list. *)
Theorem get_for_id_event_without_match_is_empty
    (int_eq_str : Z -> string -> bool) (event_id : string) (db : database) :
  (forall e, In e (event db) -> int_eq_str (EventRow.id e) event_id = false) ->
  reply (serve (get_for_id_event int_eq_str event_id) db) = inr (Returned [])
  /\ status_of (reply (serve (get_for_id_event int_eq_str event_id) db)) = 200.
Proof.
  intros H.
  assert (E : filter (fun e => int_eq_str (EventRow.id e) event_id) (event db)
              = []).
  { induction (event db) as [|e l IH]; simpl; [reflexivity|].
    rewrite (H e (or_introl eq_refl)). apply IH.
    intros e' He'. apply H. right. exact He'. }
  unfold serve, get_for_id_event, select_event_by_id, bind, ret, query,
    fetchall_dict, get_mysql_connection; simpl.
  rewrite E. split; reflexivity.
Qed.

Lemma get_for_id_event_without_match_is_empty_witness :
  (forall e, In e (event Scenario.db0) ->
             Scenario.int_eq_str (EventRow.id e) "999" = false)
  /\ reply (serve (get_for_id_event Scenario.int_eq_str "999") Scenario.db0)
     = inr (Returned []).
Proof.
  assert (H : forall e, In e (event Scenario.db0) ->
                        Scenario.int_eq_str (EventRow.id e) "999" = false).
  { intros e [<-|[]]. reflexivity. }
  split; [exact H|].
  apply (get_for_id_event_without_match_is_empty Scenario.int_eq_str "999"
           Scenario.db0 H).
Defined.

(** C8. A creation by a stored administrator appends to [event] one row with
    the title, user, description and time of the request and an empty members
    field; the statements sent are the authorization query, the insert and
    the commit, with no event lookup. *)
Theorem create_event_inserts_with_empty_members
    (event_ : Event.t) (db : database) (u : UsersRow.t) :
  user_named (Event.user event_) db = Some u ->
  UsersRow.isadmin u = true ->
  reply (serve (create_event event_) db) =
    inr (JSONResponse "Event has been added." 201)
  /\ event (store (serve (create_event event_) db)) =
       (event db ++
          [EventRow.mk (event_auto_increment db) (Event.title event_)
             (Event.user event_) (Event.description event_) ""
             (Event.time event_)])%list
  /\ statements (serve (create_event event_) db) =
       [SELECT_isadmin_FROM_users_WHERE_name (Event.user event_);
        INSERT_INTO_event (Event.title event_) (Event.user event_)
          (Event.description event_) (Event.time event_);
        COMMIT].
Proof.
  intros Hu Ha. apply find_some_filter in Hu as [rest Hu].
  run_handler. rewrite Hu; simpl. rewrite Ha; simpl.
  repeat split; reflexivity.
Qed.

Lemma create_event_inserts_with_empty_members_witness :
  user_named "alice" Scenario.db0 = Some Scenario.alice
  /\ UsersRow.isadmin Scenario.alice = true
  /\ event (store (serve (create_event (Event.mk "Picnic" "alice" "Outdoors" 5000))
                     Scenario.db0)) =
       [Scenario.meetup; EventRow.mk 2 "Picnic" "alice" "Outdoors" "" 5000].
Proof.
  split; [reflexivity|]. split; [reflexivity|].
  apply (create_event_inserts_with_empty_members
           (Event.mk "Picnic" "alice" "Outdoors" 5000) Scenario.db0
           Scenario.alice); reflexivity.
Defined.

(** C9. A user creation whose name is the name of a stored user is answered
    with status 400 and adds no row; when the insert is reached, that is when
    the name, surname and password pass their validators, the answer is the
    [IntegrityError] of the store turned into "User already exists". *)
Theorem create_user_duplicate_name_is_rejected
    (isdigit islower isupper : ascii -> bool) (user : User.t) (db : database) :
  (exists u, In u (users db) /\ UsersRow.name u = User.name user) ->
  status_of (reply (serve (create_user isdigit islower isupper user) db)) = 400
  /\ store (serve (create_user isdigit islower isupper user) db) = db
  /\ (check_letters isdigit (User.name user) = inr (User.name user) ->
      check_letters isdigit (User.surname user) = inr (User.surname user) ->
      validate_password isdigit islower isupper (User.password user) =
        inr (User.password user) ->
      serve (create_user isdigit islower isupper user) db =
        mkoutcome (inl (HTTPException 400 "User already exists")) db
          [INSERT_INTO_users (User.name user) (User.surname user)
             (User.email user) (User.phone user) (User.password user)
             (User.is_admin user)]).
Proof.
  intros (u & Hin & Hname).
  assert (E : existsb (name_is (User.name user)) (users db) = true).
  { apply existsb_exists. exists u. split; [exact Hin|].
    unfold name_is. rewrite Hname. apply String.eqb_refl. }
  unfold serve, create_user, except_IntegrityError, call, check_letters,
    validate_password, insert_user, modify, bind, ret, raise, commit,
    get_mysql_connection.
  destruct (any isdigit (User.name user)); simpl;
    [repeat split; try reflexivity; intros; discriminate|].
  destruct (any isdigit (User.surname user)); simpl;
    [repeat split; try reflexivity; intros; discriminate|].
  destruct (any islower (User.password user)); simpl;
    [|repeat split; try reflexivity; intros; discriminate].
  destruct (any isupper (User.password user)); simpl;
    [|repeat split; try reflexivity; intros; discriminate].
  rewrite E; simpl. repeat split; reflexivity.
Qed.

Lemma create_user_duplicate_name_is_rejected_witness :
  (exists u, In u (users Scenario.db0) /\ UsersRow.name u = "bob")
  /\ reply (serve (create_user Scenario.isdigit Scenario.islower
                     Scenario.isupper
                     (User.mk "bob" "Marley" "bob@example.org" "Abcde"
                        "+380501234569" false))
              Scenario.db0) =
       inl (HTTPException 400 "User already exists")
  /\ users (store (serve (create_user Scenario.isdigit Scenario.islower
                            Scenario.isupper
                            (User.mk "bob" "Marley" "bob@example.org" "Abcde"
                               "+380501234569" false))
                     Scenario.db0)) = [Scenario.alice; Scenario.bob].
Proof.
  assert (H : exists u, In u (users Scenario.db0) /\ UsersRow.name u = "bob").
  { exists Scenario.bob. split; [right; left; reflexivity | reflexivity]. }
  split; [exact H|].
  destruct (create_user_duplicate_name_is_rejected Scenario.isdigit
              Scenario.islower Scenario.isupper
              (User.mk "bob" "Marley" "bob@example.org" "Abcde"
                 "+380501234569" false)
              Scenario.db0 H) as (_ & Hstore & Hreply).
  split.
  - rewrite (Hreply eq_refl eq_refl eq_refl). reflexivity.
  - rewrite Hstore. reflexivity.
Defined.

(** C10. For every string given as [book_id] or [event_id], numeric or not,
    the application calls the handler, which sends its [SELECT] with that
    string and answers 200 with the rows that match, each as the dictionary
    of its six columns, possibly none; the store is unchanged.  Nothing
    converts the string: where the conversion to [int] fails on it, the same
    string as the [event_id: int] of the delete route or the [id: int] of the
    edit route is rejected with 422 before any statement. *)
Theorem get_for_id_accepts_every_string
    (int_of_str : string -> option Z) (int_eq_str : Z -> string -> bool)
    (now : Z) (key : string) (db : database) :
  route int_of_str int_eq_str now (GET_books_get_id key) db =
    mkoutcome
      (inr (Returned
              (map (fun b =>
                      [("id", VInt (BooksRow.id b));
                       ("title", VStr (BooksRow.title b));
                       ("author", VStr (BooksRow.author b));
                       ("description", VStr (BooksRow.description b));
                       ("count", VInt (BooksRow.count b));
                       ("year", VInt (BooksRow.year b))])
                 (filter (fun b => int_eq_str (BooksRow.id b) key)
                    (books db)))))
      db [SELECT_all_FROM_books_WHERE_id key]
  /\ route int_of_str int_eq_str now (GET_event_get_id key) db =
       mkoutcome
         (inr (Returned
                 (map (fun e =>
                         [("id", VInt (EventRow.id e));
                          ("title", VStr (EventRow.title e));
                          ("user", VStr (EventRow.user e));
                          ("description", VStr (EventRow.description e));
                          ("members", VStr (EventRow.members e));
                          ("time", VInt (EventRow.time e))])
                    (filter (fun e => int_eq_str (EventRow.id e) key)
                       (event db)))))
         db [SELECT_all_FROM_event_WHERE_id key]
  /\ status_of
       (reply (route int_of_str int_eq_str now (GET_books_get_id key) db))
     = 200
  /\ status_of
       (reply (route int_of_str int_eq_str now (GET_event_get_id key) db))
     = 200
  /\ (int_of_str key = None ->
      forall (user : string) (event_ : EventEdit.t),
        route int_of_str int_eq_str now (DELETE_event_delete_id key user) db
        = mkoutcome (inl RequestValidationError) db []
        /\ route int_of_str int_eq_str now (PUT_event_update_id key event_) db
           = mkoutcome (inl RequestValidationError) db []).
Proof.
  assert (B : route int_of_str int_eq_str now (GET_books_get_id key) db =
              mkoutcome
                (inr (Returned
                        (as_dicts BooksRow.columns
                           (map BooksRow.cells
                              (filter (fun b => int_eq_str (BooksRow.id b) key)
                                 (books db))))))
                db [SELECT_all_FROM_books_WHERE_id key]) by reflexivity.
  assert (E : route int_of_str int_eq_str now (GET_event_get_id key) db =
              mkoutcome
                (inr (Returned
                        (as_dicts EventRow.columns
                           (map EventRow.cells
                              (filter (fun e => int_eq_str (EventRow.id e) key)
                                 (event db))))))
                db [SELECT_all_FROM_event_WHERE_id key]) by reflexivity.
  unfold as_dicts in B, E. rewrite map_map in B, E.
  split; [exact B|]. split; [exact E|].
  split; [rewrite B; reflexivity|]. split; [rewrite E; reflexivity|].
  intros Hkey user event_. unfold route, with_int. rewrite Hkey.
  split; reflexivity.
Qed.

Lemma get_for_id_accepts_every_string_witness :
  Samples.int_of_str "abc" = None
  /\ Samples.int_of_str "1" = Some 1
  /\ reply (route Samples.int_of_str Scenario.int_eq_str 1000
              (GET_event_get_id "abc") Scenario.db0)
     = inr (Returned [])
  /\ reply (route Samples.int_of_str Scenario.int_eq_str 1000
              (GET_event_get_id "1") Scenario.db0)
     = inr (Returned
              [[("id", VInt 1); ("title", VStr "Meetup");
                ("user", VStr "alice");
                ("description", VStr "Monthly meetup");
                ("members", VStr ""); ("time", VInt 2000)]])
  /\ status_of
       (reply (route Samples.int_of_str Scenario.int_eq_str 1000
                 (DELETE_event_delete_id "abc" "alice") Scenario.db0))
     = 422.
Proof.
  destruct (get_for_id_accepts_every_string Samples.int_of_str
              Scenario.int_eq_str 1000 "abc" Scenario.db0)
    as (_ & Eabc & _ & _ & Hrej).
  destruct (get_for_id_accepts_every_string Samples.int_of_str
              Scenario.int_eq_str 1000 "1" Scenario.db0)
    as (_ & Eone & _).
  split; [reflexivity|]. split; [reflexivity|].
  split; [rewrite Eabc; reflexivity|].
  split; [rewrite Eone; reflexivity|].
  rewrite (proj1 (Hrej eq_refl "alice" (EventEdit.mk "t" "alice" "d"))).
  reflexivity.
Defined.

(** ** Further properties *)

(** *** The members field as text *)

Lemma append_assoc (a b c : string) : ((a ++ b) ++ c = a ++ (b ++ c))%string.
Proof. induction a as [|x a IH]; simpl; [reflexivity | now rewrite IH]. Qed.

Lemma append_empty_r (a : string) : (a ++ "" = a)%string.
Proof. induction a as [|x a IH]; simpl; [reflexivity | now rewrite IH]. Qed.

Lemma split_not_nil (sep : ascii) (s : string) : split sep s <> [].
Proof.
  destruct s as [|c rest]; simpl; [discriminate|].
  destruct (Ascii.eqb c sep); [discriminate|].
  destruct (split sep rest); discriminate.
Qed.

Lemma join_push (sep : string) (ps : list string) (a p : string) :
  fold_left (fun acc q => acc ++ sep ++ q)%string ps (a ++ p)%string
  = (a ++ fold_left (fun acc q => acc ++ sep ++ q) ps p)%string.
Proof.
  revert p. induction ps as [|q ps IH]; intros p; simpl; [reflexivity|].
  rewrite append_assoc. apply IH.
Qed.

Lemma join_cons (sep p q : string) (ps : list string) :
  join sep (p :: q :: ps) = (p ++ sep ++ join sep (q :: ps))%string.
Proof.
  unfold join. cbn [fold_left]. rewrite <- append_assoc.
  rewrite (join_push sep ps (p ++ sep) q). apply append_assoc.
Qed.

Lemma join_String (sep : string) (c : ascii) (w : string) (ws : list string) :
  join sep (String c w :: ws) = String c (join sep (w :: ws)).
Proof.
  unfold join. change (String c w) with (String c "" ++ w)%string.
  now rewrite join_push.
Qed.

(** Joining with the separator what [split] returns gives the string back,
    for every separator and every string. *)
Lemma join_split_round_trip (sep : ascii) (s : string) :
  join (String sep "") (split sep s) = s.
Proof.
  induction s as [|c rest IH]; [reflexivity|].
  cbn [split].
  destruct (split sep rest) as [|w ws] eqn:E;
    [exfalso; exact (split_not_nil sep rest E)|].
  destruct (Ascii.eqb_spec c sep) as [->|Hc].
  - rewrite join_cons, IH. reflexivity.
  - rewrite join_String, IH. reflexivity.
Qed.

Lemma split_append_separator (sep : ascii) (a b : string) :
  split sep (a ++ String sep b) = (split sep a ++ split sep b)%list.
Proof.
  induction a as [|c a IH]; cbn [append split].
  - rewrite Ascii.eqb_refl. reflexivity.
  - rewrite IH. destruct (Ascii.eqb c sep); [reflexivity|].
    destruct (split sep a) as [|w ws] eqn:E;
      [exfalso; exact (split_not_nil sep a E) | reflexivity].
Qed.

Lemma split_without_separator (sep : ascii) (s : string) :
  char_in sep s = false -> split sep s = [s].
Proof.
  unfold char_in. induction s as [|c s IH]; cbn [any split]; [reflexivity|].
  intros H. apply Bool.orb_false_iff in H as [Hc Hs].
  rewrite Ascii.eqb_sym, Hc, (IH Hs). reflexivity.
Qed.

Lemma digits_without_comma (d : Decimal.uint) :
  char_in "," (NilEmpty.string_of_uint d) = false.
Proof. induction d; simpl; auto. Qed.

Lemma str_of_int_without_comma (n : Z) : char_in "," (str_of_int n) = false.
Proof.
  unfold str_of_int, NilZero.string_of_int, NilZero.string_of_uint.
  destruct (Z.to_int n) as [d|d]; destruct d; simpl;
    try reflexivity; apply digits_without_comma.
Qed.

Lemma members_after_cons (n : Z) (ids : list Z) :
  members_after (n :: ids)
  = (str_of_int n ++ String "," (members_after ids))%string.
Proof.
  unfold members_after. cbn [fold_left]. cbn [append].
  assert (G : forall l acc,
             fold_left (fun f m => f ++ str_of_int m ++ ",")%string l acc
             = (acc ++ fold_left (fun f m => f ++ str_of_int m ++ ",")%string
                         l "")%string).
  { induction l as [|m l IH]; intros acc; cbn [fold_left].
    - symmetry. apply append_empty_r.
    - rewrite IH. rewrite (IH ("" ++ str_of_int m ++ ",")%string).
      rewrite append_assoc. reflexivity. }
  rewrite G, append_assoc. reflexivity.
Qed.

(** The text [members_after] splits on the comma into the decimal texts of
    the identifiers, followed by one empty string. *)
Lemma members_after_splits (ids : list Z) :
  members_list (members_after ids) = (map str_of_int ids ++ [""])%list.
Proof.
  unfold members_list.
  induction ids as [|n ids IH]; [reflexivity|].
  rewrite members_after_cons, split_append_separator, IH.
  rewrite (split_without_separator "," (str_of_int n)
             (str_of_int_without_comma n)).
  reflexivity.
Qed.

(** *** Authorization in the handlers that use [fetchone] *)

(** X2. Create, edit, reschedule and RSVP decide on the first row of [users]
    whose name is the acting user: without such a row they answer 404 "User
    not found", with a row whose flag is false they answer 403, both with the
    store unchanged and only the authorization query sent; with a row whose
    flag is true they send their next statement. *)
Theorem fetchone_handlers_authorize (r : request) (db : database) :
  reads_user_with_fetchone r = true ->
  match user_named (acting_user r) db with
  | None =>
      serve (handler_of r) db =
        mkoutcome (inl (HTTPException 404 "User not found")) db
          [SELECT_isadmin_FROM_users_WHERE_name (acting_user r)]
  | Some u =>
      if UsersRow.isadmin u then
        exists rest,
          statements (serve (handler_of r) db) =
            SELECT_isadmin_FROM_users_WHERE_name (acting_user r)
              :: first_statement_after_authorization r :: rest
      else
        exists detail,
          serve (handler_of r) db =
            mkoutcome (inl (HTTPException 403 detail)) db
              [SELECT_isadmin_FROM_users_WHERE_name (acting_user r)]
  end.
Proof.
  intros Hr.
  destruct (user_named (acting_user r) db) as [u|] eqn:Hu.
  - destruct (UsersRow.isadmin u) eqn:Ha.
    + exact (admin_proceeds r db u Hr Hu Ha).
    + exact (non_admin_forbidden r db u Hr Hu Ha).
  - exact (unknown_user_not_found r db Hr Hu).
Qed.

Lemma fetchone_handlers_authorize_witness :
  reads_user_with_fetchone
    (PATCH_event_update_rsvp 1 "bob" 1) = true
  /\ exists detail,
       serve (update_members 1 "bob" 1) Scenario.db0 =
         mkoutcome (inl (HTTPException 403 detail)) Scenario.db0
           [SELECT_isadmin_FROM_users_WHERE_name "bob"].
Proof.
  split; [reflexivity|].
  exact (fetchone_handlers_authorize (PATCH_event_update_rsvp 1 "bob" 1)
           Scenario.db0 eq_refl).
Defined.

(** *** What every request on events keeps *)

(** Walks through the branches of an unfolded handler *)
Ltac walk :=
  repeat (simpl;
          match goal with
          | |- context [py_in (VInt ?n) (map VStr ?l)] =>
              rewrite (py_in_int_strs n l)
          | |- context [map _ (filter ?p ?l)] =>
              destruct (filter p l)
          | |- context [Z.b2z (UsersRow.isadmin ?u)] =>
              destruct (UsersRow.isadmin u)
          end);
  simpl.

(** X3. A request on events that ends in an exception leaves the committed
    store as it was. *)
Theorem failed_event_request_changes_nothing
    (r : request) (db : database) (e : raised) :
  reply (serve (handler_of r) db) = inl e ->
  store (serve (handler_of r) db) = db.
Proof.
  destruct r; simpl; run_handler; walk;
    intros H; try discriminate H; reflexivity.
Qed.

Lemma failed_event_request_changes_nothing_witness :
  reply (serve (handler_of (DELETE_event_delete 1 "carol")) Scenario.db0)
  = inl IndexError
  /\ store (serve (handler_of (DELETE_event_delete 1 "carol")) Scenario.db0)
     = Scenario.db0.
Proof.
  split; [reflexivity|].
  apply (failed_event_request_changes_nothing (DELETE_event_delete 1 "carol")
           Scenario.db0 IndexError).
  reflexivity.
Defined.

(** X4. No request on events changes the [users] or [books] table or their
    [AUTO_INCREMENT] counters, whatever its answer. *)
Theorem event_requests_touch_only_event (r : request) (db : database) :
  users (store (serve (handler_of r) db)) = users db
  /\ books (store (serve (handler_of r) db)) = books db
  /\ users_auto_increment (store (serve (handler_of r) db))
     = users_auto_increment db
  /\ books_auto_increment (store (serve (handler_of r) db))
     = books_auto_increment db.
Proof.
  destruct r; simpl; run_handler; walk; repeat split; reflexivity.
Qed.

Lemma update_where_keeps_ids (id : Z) (f : EventRow.t -> EventRow.t)
    (db : database) :
  (forall e, EventRow.id (f e) = EventRow.id e) ->
  map EventRow.id (event (update_where id f db)) = map EventRow.id (event db).
Proof.
  intros Hf. unfold update_where, set_event; simpl.
  induction (event db) as [|e l IH]; simpl; [reflexivity|].
  rewrite IH. destruct (event_id_is id e); [rewrite Hf|]; reflexivity.
Qed.

(** X5. Edit, reschedule and RSVP neither add nor remove a row of [event]:
    the identifiers are the same, in the same order, whatever the answer. *)
Theorem updates_keep_the_event_identifiers (r : request) (db : database) :
  updates_in_place r = true ->
  map EventRow.id (event (store (serve (handler_of r) db)))
  = map EventRow.id (event db).
Proof.
  destruct r; simpl; try discriminate; intros _; run_handler; walk;
    try reflexivity; apply update_where_keeps_ids; reflexivity.
Qed.

Lemma updates_keep_the_event_identifiers_witness :
  updates_in_place (PATCH_event_update_rsvp 1 "alice" 2) = true
  /\ map EventRow.id
       (event (store (serve (update_members 1 "alice" 2) Scenario.db0)))
     = [1].
Proof.
  split; [reflexivity|].
  exact (updates_keep_the_event_identifiers
           (PATCH_event_update_rsvp 1 "alice" 2) Scenario.db0 eq_refl).
Defined.

Lemma keys_sound_after_update (id : Z) (f : EventRow.t -> EventRow.t)
    (db : database) :
  (forall e, EventRow.id (f e) = EventRow.id e) ->
  event_keys_sound db -> event_keys_sound (update_where id f db).
Proof.
  intros Hf [Hnd Hlt]. split.
  - rewrite update_where_keeps_ids; assumption.
  - unfold update_where, set_event; simpl.
    apply Forall_map. revert Hlt. apply Forall_impl. intros e He.
    destruct (event_id_is id e); [rewrite Hf|]; exact He.
Qed.

Lemma keys_sound_after_insert (title user description members : string)
    (time : Z) (db : database) :
  event_keys_sound db ->
  event_keys_sound
    (mkdb
       (event db ++
          [EventRow.mk (event_auto_increment db) title user description
             members time])
       (users db) (books db) (event_auto_increment db + 1)
       (users_auto_increment db) (books_auto_increment db)).
Proof.
  intros [Hnd Hlt]. split; simpl.
  - rewrite map_app; simpl.
    apply NoDup_app; [exact Hnd | repeat constructor; intros [] |].
    intros x Hx [<-|[]].
    apply in_map_iff in Hx as (e & He & Hin).
    rewrite Forall_forall in Hlt. specialize (Hlt e Hin). lia.
  - apply Forall_app. split.
    + revert Hlt. apply Forall_impl. intros e He. lia.
    + constructor; [simpl; lia | constructor].
Qed.

Lemma keys_sound_after_delete (p : EventRow.t -> bool) (db : database) :
  event_keys_sound db -> event_keys_sound (set_event (filter p (event db)) db).
Proof.
  intros [Hnd Hlt]. split; simpl.
  - clear Hlt. induction (event db) as [|e l IH]; simpl; [constructor|].
    inversion Hnd as [|x xs Hx Hxs]; subst.
    destruct (p e); simpl; [|exact (IH Hxs)].
    constructor; [|exact (IH Hxs)].
    intros Hin. apply Hx. apply in_map_iff in Hin as (e' & He' & Hin).
    apply in_map_iff. exists e'. split; [exact He'|].
    apply filter_In in Hin. tauto.
  - rewrite Forall_forall in *. intros e He. apply Hlt.
    apply filter_In in He. tauto.
Qed.

(** X6. The primary key of [event] survives every request on events: when no
    identifier occurs twice and all lie below the [AUTO_INCREMENT] counter,
    the same holds of the store after create, edit, reschedule, RSVP and
    delete. *)
Theorem event_requests_keep_the_primary_key (r : request) (db : database) :
  event_keys_sound db -> event_keys_sound (store (serve (handler_of r) db)).
Proof.
  intros H.
  destruct r; simpl; run_handler; walk;
    first [ exact H
          | apply keys_sound_after_insert; exact H
          | apply keys_sound_after_update; [reflexivity | exact H]
          | apply keys_sound_after_delete; exact H ].
Qed.

Lemma event_requests_keep_the_primary_key_witness :
  event_keys_sound Scenario.db0
  /\ event_keys_sound
       (store (serve (create_event Samples.picnic) Scenario.db0)).
Proof.
  assert (H : event_keys_sound Scenario.db0).
  { split; simpl.
    - repeat constructor. intros [].
    - repeat constructor. }
  split; [exact H|].
  exact (event_requests_keep_the_primary_key (POST_events_add Samples.picnic)
           Scenario.db0 H).
Defined.

(** *** Delete *)

Lemma existsb_filter_negb {A : Type} (p : A -> bool) (l : list A) :
  existsb p (filter (fun x => negb (p x)) l) = false.
Proof.
  induction l as [|x l IH]; simpl; [reflexivity|].
  destruct (p x) eqn:E; simpl; [exact IH | rewrite E; exact IH].
Qed.

(** X7. After [delete_event] has removed event [event_id] for a stored user,
    no row with this identifier is left, the rows left are the former rows
    with another identifier, and the same request again is answered with 404
    "Task not found". *)
Theorem delete_event_removes_every_row_with_the_id
    (event_id : Z) (user : string) (db : database) (u : UsersRow.t) :
  user_named user db = Some u ->
  event_exists event_id db = true ->
  event_exists event_id (store (serve (delete_event event_id user) db)) = false
  /\ event (store (serve (delete_event event_id user) db))
     = filter (fun e => negb (EventRow.id e =? event_id)) (event db)
  /\ reply (serve (delete_event event_id user)
              (store (serve (delete_event event_id user) db)))
     = inl (HTTPException 404 "Task not found").
Proof.
  intros Hu He.
  apply find_some_filter in Hu as [us Hu].
  pose proof He as He'.
  apply existsb_true_filter in He' as (e & es & He').
  assert (S1 : store (serve (delete_event event_id user) db)
               = set_event
                   (filter (fun e => negb (event_id_is event_id e)) (event db))
                   db).
  { run_handler. rewrite Hu; simpl. rewrite He'; simpl. reflexivity. }
  rewrite S1. split; [|split].
  - unfold event_exists; simpl. apply existsb_filter_negb.
  - reflexivity.
  - run_handler. rewrite Hu; simpl.
    assert (G : filter (event_id_is event_id)
                  (filter (fun e => negb (event_id_is event_id e)) (event db))
                = []).
    { apply find_none_filter.
      destruct (find (event_id_is event_id)
                  (filter (fun e => negb (event_id_is event_id e)) (event db)))
        as [x|] eqn:F; [|reflexivity].
      apply find_some in F as [Hin Hx]. apply filter_In in Hin as [_ Hn].
      rewrite Hx in Hn. discriminate. }
    rewrite G; simpl. reflexivity.
Qed.

Lemma delete_event_removes_every_row_with_the_id_witness :
  user_named "alice" Scenario.db0 = Some Scenario.alice
  /\ event_exists 1 Scenario.db0 = true
  /\ event_exists 1 (store (serve (delete_event 1 "alice") Scenario.db0))
     = false.
Proof.
  split; [reflexivity|]. split; [reflexivity|].
  apply (delete_event_removes_every_row_with_the_id 1 "alice" Scenario.db0
           Scenario.alice); reflexivity.
Defined.

(** X8. [delete_event] for an acting user without a row in [users] ends in an
    [IndexError], answered with 500: [fetchall] returns the empty tuple, which
    is a tuple, and its first element is read.  Only the authorization query
    is sent and the store is unchanged. *)
Theorem delete_event_unknown_user_is_an_index_error
    (event_id : Z) (user : string) (db : database) :
  user_named user db = None ->
  serve (delete_event event_id user) db =
    mkoutcome (inl IndexError) db [SELECT_isadmin_FROM_users_WHERE_name user]
  /\ status_of (reply (serve (delete_event event_id user) db)) = 500.
Proof.
  intros Hu. apply find_none_filter in Hu.
  run_handler. rewrite Hu; simpl. split; reflexivity.
Qed.

Lemma delete_event_unknown_user_is_an_index_error_witness :
  user_named "carol" Scenario.db0 = None
  /\ status_of (reply (serve (delete_event 1 "carol") Scenario.db0)) = 500.
Proof.
  split; [reflexivity|].
  apply (delete_event_unknown_user_is_an_index_error 1 "carol" Scenario.db0).
  reflexivity.
Defined.

(** *** Reschedule and RSVP *)

Lemma existsb_false_filter {A : Type} (p : A -> bool) (l : list A) :
  existsb p l = false -> filter p l = [].
Proof.
  induction l as [|x l IH]; simpl; [reflexivity|].
  destruct (p x); simpl; [discriminate | exact IH].
Qed.

(** X9. When the application answers a reschedule of event [id] with 200, the
    new time was after the instant of the request, the rows with this
    identifier carry it and keep their other fields, every other row is
    unchanged, and the statements sent are the authorization query, the event
    lookup, the update and the commit. *)
Theorem reschedule_sets_a_future_time_only
    (now id : Z) (user : string) (datetime_ : Z) (db : database) :
  status_of
    (reply (app now (PATCH_event_update_reschedule id user datetime_) db))
  = 200 ->
  now < datetime_
  /\ Forall2 (rescheduled id datetime_) (event db)
       (event (store (app now (PATCH_event_update_reschedule id user datetime_)
                        db)))
  /\ statements (app now (PATCH_event_update_reschedule id user datetime_) db)
     = [SELECT_isadmin_FROM_users_WHERE_name user;
        SELECT_id_FROM_event_WHERE_id id;
        UPDATE_event_SET_time datetime_ id; COMMIT].
Proof.
  unfold app, validate, FutureDatetime.
  destruct (now <? datetime_) eqn:E; [|discriminate].
  apply Z.ltb_lt in E. cbn [handler_of]. run_handler.
  destruct (filter (name_is user) (users db)) as [|u us]; simpl;
    [discriminate|].
  destruct (UsersRow.isadmin u); simpl; [|discriminate].
  destruct (filter (event_id_is id) (event db)); simpl; [discriminate|].
  intros _. split; [exact E|]. split; [|reflexivity].
  apply Forall2_map_pointwise. intros old. unfold rescheduled, event_id_is.
  destruct (EventRow.id old =? id) eqn:F; simpl.
  - repeat split; try reflexivity. apply Z.eqb_eq in F. contradiction.
  - apply Z.eqb_neq in F. repeat split; try reflexivity; contradiction.
Qed.

Lemma reschedule_sets_a_future_time_only_witness :
  status_of
    (reply (app 1000 (PATCH_event_update_reschedule 1 "alice" 2500)
              Scenario.db0)) = 200
  /\ 1000 < 2500
  /\ map EventRow.time
       (event (store (app 1000 (PATCH_event_update_reschedule 1 "alice" 2500)
                        Scenario.db0))) = [2500].
Proof.
  split; [reflexivity|].
  destruct (reschedule_sets_a_future_time_only 1000 1 "alice" 2500 Scenario.db0
              eq_refl) as (Hlt & _ & _).
  split; [exact Hlt | reflexivity].
Defined.

(** X10. An RSVP by an administrator on an event that does not exist is
    answered with 404 "Event not found" before the member is looked up; on an
    existing event with a member identifier that is no identifier of [users]
    it is answered with 404 "Member not found".  Neither changes the store. *)
Theorem rsvp_needs_the_event_then_the_member
    (id : Z) (user : string) (member_id : Z) (db : database) (u : UsersRow.t) :
  user_named user db = Some u ->
  UsersRow.isadmin u = true ->
  (event_exists id db = false ->
   serve (update_members id user member_id) db =
     mkoutcome (inl (HTTPException 404 "Event not found")) db
       [SELECT_isadmin_FROM_users_WHERE_name user;
        SELECT_members_FROM_event_WHERE_id id])
  /\ (event_exists id db = true ->
      existsb (fun m => UsersRow.id m =? member_id) (users db) = false ->
      serve (update_members id user member_id) db =
        mkoutcome (inl (HTTPException 404 "Member not found")) db
          [SELECT_isadmin_FROM_users_WHERE_name user;
           SELECT_members_FROM_event_WHERE_id id;
           SELECT_id_FROM_users_WHERE_id member_id]).
Proof.
  intros Hu Ha. apply find_some_filter in Hu as [us Hu]. split.
  - intros He. apply existsb_false_filter in He.
    run_handler. rewrite Hu; simpl. rewrite Ha; simpl. rewrite He; simpl.
    reflexivity.
  - intros He Hm. apply existsb_true_filter in He as (e & es & He).
    apply existsb_false_filter in Hm.
    run_handler. rewrite Hu; simpl. rewrite Ha; simpl. rewrite He; simpl.
    rewrite Hm; simpl. reflexivity.
Qed.

Lemma rsvp_needs_the_event_then_the_member_witness :
  user_named "alice" Scenario.db0 = Some Scenario.alice
  /\ UsersRow.isadmin Scenario.alice = true
  /\ reply (serve (update_members 7 "alice" 2) Scenario.db0)
     = inl (HTTPException 404 "Event not found")
  /\ reply (serve (update_members 1 "alice" 9) Scenario.db0)
     = inl (HTTPException 404 "Member not found").
Proof.
  split; [reflexivity|]. split; [reflexivity|].
  split.
  - rewrite (proj1 (rsvp_needs_the_event_then_the_member 7 "alice" 2
                      Scenario.db0 Scenario.alice eq_refl eq_refl) eq_refl).
    reflexivity.
  - rewrite (proj2 (rsvp_needs_the_event_then_the_member 1 "alice" 9
                      Scenario.db0 Scenario.alice eq_refl eq_refl)
               eq_refl eq_refl).
    reflexivity.
Defined.

(** *** Create *)

(** X11. The application answers an event creation with 201 only when the
    time of the event was after the instant of the request, title, user and
    description were within their lengths and the first row of [users] with
    the event's user name has a true administrator flag; the store is then
    the former store with the event appended under the next identifier, with
    an empty members field. *)
Theorem created_event_is_future_and_by_an_administrator
    (now : Z) (event_ : Event.t) (db : database) :
  status_of (reply (app now (POST_events_add event_) db)) = 201 ->
  now < Event.time event_
  /\ (String.length (Event.title event_) <= 50)%nat
  /\ (String.length (Event.user event_) <= 50)%nat
  /\ (String.length (Event.description event_) <= 200)%nat
  /\ (exists u, user_named (Event.user event_) db = Some u
                /\ UsersRow.isadmin u = true)
  /\ event (store (app now (POST_events_add event_) db))
     = (event db ++ [stored_event (event_auto_increment db) event_])%list
  /\ event_auto_increment (store (app now (POST_events_add event_) db))
     = event_auto_increment db + 1.
Proof.
  unfold app, validate, FutureDatetime, max_length.
  destruct (Nat.leb (String.length (Event.title event_)) 50) eqn:L1;
    [|discriminate].
  destruct (Nat.leb (String.length (Event.user event_)) 50) eqn:L2;
    [|discriminate].
  destruct (Nat.leb (String.length (Event.description event_)) 200) eqn:L3;
    [|discriminate].
  destruct (now <? Event.time event_) eqn:L4; [|discriminate].
  cbn [andb handler_of].
  apply Nat.leb_le in L1, L2, L3. apply Z.ltb_lt in L4.
  destruct (user_named (Event.user event_) db) as [u|] eqn:Hu.
  - destruct (UsersRow.isadmin u) eqn:Ha.
    + intros _. repeat (split; [assumption|]).
      split; [exists u; auto|].
      apply find_some_filter in Hu as [rest Hu].
      run_handler. rewrite Hu; simpl. rewrite Ha; simpl.
      split; reflexivity.
    + destruct (non_admin_forbidden (POST_events_add event_) db u eq_refl Hu Ha)
        as [detail E].
      cbn [handler_of] in E. rewrite E. discriminate.
  - pose proof (unknown_user_not_found (POST_events_add event_) db eq_refl Hu)
      as E.
    cbn [handler_of] in E. rewrite E. discriminate.
Qed.

Lemma created_event_is_future_and_by_an_administrator_witness :
  status_of (reply (app 1000 (POST_events_add Samples.picnic) Scenario.db0))
  = 201
  /\ 1000 < Event.time Samples.picnic
  /\ event (store (app 1000 (POST_events_add Samples.picnic) Scenario.db0))
     = [Scenario.meetup; EventRow.mk 2 "Picnic" "alice" "Outdoors" "" 5000].
Proof.
  split; [reflexivity|].
  destruct (created_event_is_future_and_by_an_administrator 1000
              Samples.picnic Scenario.db0 eq_refl)
    as (Hlt & _ & _ & _ & _ & Hev & _).
  split; [exact Hlt | rewrite Hev; reflexivity].
Defined.

Lemma as_dicts_books (l : list BooksRow.t) :
  as_dicts BooksRow.columns (map BooksRow.cells l) = map book_dict l.
Proof. unfold as_dicts, book_dict. apply map_map. Qed.

Lemma as_dicts_events (l : list EventRow.t) :
  as_dicts EventRow.columns (map EventRow.cells l) = map event_dict l.
Proof. unfold as_dicts, event_dict. apply map_map. Qed.

(** X12. [create_book] asks for no authorization.  For a count within the
    range of the [INTEGER] column it answers 201 in either SQL mode, with the
    insert and the commit as its statements, and the list that
    [get_all_books] returns afterwards is the list it returned before followed
    by the new book under the next identifier with the title, author,
    description, count and year of the request. *)
Theorem created_book_is_listed
    (strict_mode : bool) (book : Book.t) (db : database) :
  fits_INTEGER (Book.count book) = true ->
  reply (serve (create_book strict_mode book) db)
  = inr (JSONResponse "Book has been added." 201)
  /\ statements (serve (create_book strict_mode book) db)
     = [INSERT_INTO_books (Book.title book) (Book.author book)
          (Book.description book) (Book.year book) (Book.count book);
        COMMIT]
  /\ (forall before,
        reply (serve get_all_books db) = inr (Returned before) ->
        reply (serve get_all_books
                 (store (serve (create_book strict_mode book) db)))
        = inr (Returned
                 (before ++
                    [[("id", VInt (books_auto_increment db));
                      ("title", VStr (Book.title book));
                      ("author", VStr (Book.author book));
                      ("description", VStr (Book.description book));
                      ("count", VInt (Book.count book));
                      ("year", VInt (Book.year book))]]))).
Proof.
  intros Hfit.
  unfold serve, get_all_books, create_book, insert_book, select_books, modify,
    query, commit, fetchall_dict, bind, ret, get_mysql_connection; simpl.
  rewrite Hfit; simpl. split; [reflexivity|]. split; [reflexivity|].
  rewrite !as_dicts_books, map_app. intros before [= <-]. reflexivity.
Qed.

Lemma created_book_is_listed_witness :
  fits_INTEGER (Book.count Samples.dune) = true
  /\ reply (serve get_all_books Scenario.db0) = inr (Returned [])
  /\ reply (serve get_all_books
              (store (serve (create_book true Samples.dune) Scenario.db0)))
     = inr (Returned
              [[("id", VInt 1); ("title", VStr "Dune");
                ("author", VStr "Frank Herbert");
                ("description", VStr "Desert planet");
                ("count", VInt 3); ("year", VInt 1965)]]).
Proof.
  split; [reflexivity|]. split; [reflexivity|].
  exact (proj2 (proj2 (created_book_is_listed true Samples.dune Scenario.db0
                         eq_refl)) [] eq_refl).
Defined.

(** X13. A book read back by identifier: for a count within the range of
    the [INTEGER] column, when the path parameter matches the identifier
    given to the new book and that of no book stored before,
    [get_for_id_book] after [create_book] returns exactly the new book, with
    the fields of the request. *)
Theorem created_book_is_found_by_id
    (strict_mode : bool) (int_eq_str : Z -> string -> bool) (book : Book.t)
    (book_id : string) (db : database) :
  fits_INTEGER (Book.count book) = true ->
  int_eq_str (books_auto_increment db) book_id = true ->
  (forall b, In b (books db) -> int_eq_str (BooksRow.id b) book_id = false) ->
  reply (serve (get_for_id_book int_eq_str book_id)
           (store (serve (create_book strict_mode book) db)))
  = inr (Returned
           [[("id", VInt (books_auto_increment db));
             ("title", VStr (Book.title book));
             ("author", VStr (Book.author book));
             ("description", VStr (Book.description book));
             ("count", VInt (Book.count book));
             ("year", VInt (Book.year book))]]).
Proof.
  intros Hfit Hnew Hold.
  unfold serve, get_for_id_book, select_book_by_id, create_book, insert_book,
    modify, query, commit, fetchall_dict, bind, ret, get_mysql_connection;
    simpl.
  rewrite Hfit; simpl.
  rewrite as_dicts_books, filter_app; simpl. rewrite Hnew.
  assert (E : filter (fun b => int_eq_str (BooksRow.id b) book_id) (books db)
              = []).
  { induction (books db) as [|b l IH]; simpl; [reflexivity|].
    rewrite (Hold b (or_introl eq_refl)). apply IH.
    intros b' Hb'. apply Hold. right. exact Hb'. }
  rewrite E. reflexivity.
Qed.

Lemma created_book_is_found_by_id_witness :
  fits_INTEGER (Book.count Samples.dune) = true
  /\ Scenario.int_eq_str (books_auto_increment Scenario.db0) "1" = true
  /\ reply (serve (get_for_id_book Scenario.int_eq_str "1")
              (store (serve (create_book true Samples.dune) Scenario.db0)))
     = inr (Returned
              [[("id", VInt 1); ("title", VStr "Dune");
                ("author", VStr "Frank Herbert");
                ("description", VStr "Desert planet");
                ("count", VInt 3); ("year", VInt 1965)]]).
Proof.
  split; [reflexivity|]. split; [reflexivity|].
  apply (created_book_is_found_by_id true Scenario.int_eq_str Samples.dune "1"
           Scenario.db0); [reflexivity | reflexivity | intros b []].
Defined.

(** X14. An event created by an administrator is listed by [get_all_events]
    after the events listed before, with an empty members field. *)
Theorem created_event_is_listed
    (event_ : Event.t) (db : database) (u : UsersRow.t) :
  user_named (Event.user event_) db = Some u ->
  UsersRow.isadmin u = true ->
  reply (serve get_all_events (store (serve (create_event event_) db)))
  = inr (Returned
           (map event_dict (event db) ++
              [[("id", VInt (event_auto_increment db));
                ("title", VStr (Event.title event_));
                ("user", VStr (Event.user event_));
                ("description", VStr (Event.description event_));
                ("members", VStr "");
                ("time", VInt (Event.time event_))]])).
Proof.
  intros Hu Ha. apply find_some_filter in Hu as [rest Hu].
  unfold get_all_events, select_events, fetchall_dict.
  run_handler. rewrite Hu; simpl. rewrite Ha; simpl.
  rewrite as_dicts_events, map_app. reflexivity.
Qed.

Lemma created_event_is_listed_witness :
  user_named "alice" Scenario.db0 = Some Scenario.alice
  /\ UsersRow.isadmin Scenario.alice = true
  /\ reply (serve get_all_events
              (store (serve (create_event Samples.picnic) Scenario.db0)))
     = inr (Returned
              [event_dict Scenario.meetup;
               event_dict (EventRow.mk 2 "Picnic" "alice" "Outdoors" "" 5000)]).
Proof.
  split; [reflexivity|]. split; [reflexivity|].
  exact (created_event_is_listed Samples.picnic Scenario.db0 Scenario.alice
           eq_refl eq_refl).
Defined.

(** *** Users *)

Section CreateUser.
Variables isdigit islower isupper : ascii -> bool.

Lemma create_user_rejected_by_validators (user : User.t) (db : database) :
  passes_validators isdigit islower isupper user = false ->
  exists detail,
    serve (create_user isdigit islower isupper user) db =
      mkoutcome (inl (HTTPException 400 detail)) db [].
Proof.
  unfold passes_validators, serve, create_user, except_IntegrityError, call,
    check_letters, validate_password, bind, get_mysql_connection.
  destruct (any isdigit (User.name user)); simpl;
    [intros _; eexists; reflexivity|].
  destruct (any isdigit (User.surname user)); simpl;
    [intros _; eexists; reflexivity|].
  destruct (any islower (User.password user)); simpl;
    [|intros _; eexists; reflexivity].
  destruct (any isupper (User.password user)); simpl;
    [discriminate | intros _; eexists; reflexivity].
Qed.

Lemma create_user_reaches_the_store (user : User.t) (db : database) :
  passes_validators isdigit islower isupper user = true ->
  serve (create_user isdigit islower isupper user) db =
    if existsb (name_is (User.name user)) (users db) then
      mkoutcome (inl (HTTPException 400 "User already exists")) db
        [INSERT_INTO_users (User.name user) (User.surname user)
           (User.email user) (User.phone user) (User.password user)
           (User.is_admin user)]
    else
      mkoutcome (inr (JSONResponse "User has been added." 201))
        (mkdb (event db)
           (users db ++ [stored_user (users_auto_increment db) user])
           (books db) (event_auto_increment db) (users_auto_increment db + 1)
           (books_auto_increment db))
        [INSERT_INTO_users (User.name user) (User.surname user)
           (User.email user) (User.phone user) (User.password user)
           (User.is_admin user);
         COMMIT].
Proof.
  unfold passes_validators, serve, create_user, except_IntegrityError, call,
    check_letters, validate_password, insert_user, modify, commit, bind, ret,
    raise, get_mysql_connection.
  destruct (any isdigit (User.name user)); simpl; [discriminate|].
  destruct (any isdigit (User.surname user)); simpl; [discriminate|].
  destruct (any islower (User.password user)); simpl; [|discriminate].
  destruct (any isupper (User.password user)); simpl; [|discriminate].
  intros _.
  destruct (existsb (name_is (User.name user)) (users db)); reflexivity.
Qed.

Lemma find_after_fresh_append {A : Type} (p : A -> bool) (l : list A) (x : A) :
  existsb p l = false -> p x = true -> find p (l ++ [x]) = Some x.
Proof.
  intros Hl Hx. induction l as [|y l IH]; simpl in *.
  - rewrite Hx. reflexivity.
  - apply Bool.orb_false_iff in Hl as [Hy Hl]. rewrite Hy. exact (IH Hl).
Qed.

Lemma fresh_name_not_stored (name : string) (l : list UsersRow.t) :
  existsb (name_is name) l = false -> ~ In name (map UsersRow.name l).
Proof.
  intros H Hin. apply in_map_iff in Hin as (u & Hu & Hin).
  assert (E : existsb (name_is name) l = true).
  { apply existsb_exists. exists u. split; [exact Hin|].
    unfold name_is. rewrite Hu. apply String.eqb_refl. }
  rewrite E in H. discriminate.
Qed.

Lemma find_none_existsb {A : Type} (p : A -> bool) (l : list A) :
  find p l = None -> existsb p l = false.
Proof.
  intros Hn. destruct (existsb p l) eqn:E; [|reflexivity].
  apply existsb_exists in E as (x & Hin & Hx).
  apply (find_none _ _ Hn) in Hin. rewrite Hin in Hx. discriminate.
Qed.

Lemma fresh_user_is_stored (user : User.t) (db : database) :
  passes_validators isdigit islower isupper user = true ->
  user_named (User.name user) db = None ->
  serve (create_user isdigit islower isupper user) db =
    mkoutcome (inr (JSONResponse "User has been added." 201))
      (mkdb (event db)
         (users db ++ [stored_user (users_auto_increment db) user])
         (books db) (event_auto_increment db) (users_auto_increment db + 1)
         (books_auto_increment db))
      [INSERT_INTO_users (User.name user) (User.surname user)
         (User.email user) (User.phone user) (User.password user)
         (User.is_admin user);
       COMMIT]
  /\ user_named (User.name user)
       (store (serve (create_user isdigit islower isupper user) db))
     = Some (stored_user (users_auto_increment db) user).
Proof.
  intros Hv Hn. rewrite (create_user_reaches_the_store user db Hv).
  rewrite (find_none_existsb _ _ Hn). split; [reflexivity|].
  unfold user_named; simpl.
  apply find_after_fresh_append; [exact (find_none_existsb _ _ Hn)|].
  unfold name_is, stored_user; simpl. apply String.eqb_refl.
Qed.

(** X15. A payload that fails [check_letters] on the name or the surname, or
    has a password without a lowercase or without an uppercase letter, is
    answered with 400 before any statement is sent; the store is unchanged. *)
Theorem create_user_validates_before_the_store
    (user : User.t) (db : database) :
  passes_validators isdigit islower isupper user = false ->
  status_of (reply (serve (create_user isdigit islower isupper user) db)) = 400
  /\ statements (serve (create_user isdigit islower isupper user) db) = []
  /\ store (serve (create_user isdigit islower isupper user) db) = db.
Proof.
  intros H. destruct (create_user_rejected_by_validators user db H) as [d E].
  rewrite E. repeat split; reflexivity.
Qed.

(** X16. A payload that passes the validators, fits the [VARCHAR] columns
    of [users] (name, surname and e-mail within 50 characters, password
    within 20) and whose name is the name of no stored user is answered with
    201; the user is appended under the next identifier with the fields of
    the payload, and is from then on the row that the authorization query of
    the event handlers finds for this name. *)
Theorem created_user_is_found_by_name (user : User.t) (db : database) :
  passes_validators isdigit islower isupper user = true ->
  fits_users_columns user = true ->
  user_named (User.name user) db = None ->
  reply (serve (create_user isdigit islower isupper user) db)
  = inr (JSONResponse "User has been added." 201)
  /\ users (store (serve (create_user isdigit islower isupper user) db))
     = (users db ++
          [UsersRow.mk (users_auto_increment db) (User.name user)
             (User.surname user) (User.email user) (User.password user)
             (User.phone user) (User.is_admin user)])%list
  /\ user_named (User.name user)
       (store (serve (create_user isdigit islower isupper user) db))
     = Some (UsersRow.mk (users_auto_increment db) (User.name user)
               (User.surname user) (User.email user) (User.password user)
               (User.phone user) (User.is_admin user)).
Proof.
  intros Hv _ Hn. destruct (fresh_user_is_stored user db Hv Hn) as [E F].
  split; [|split].
  - rewrite E. reflexivity.
  - rewrite E. reflexivity.
  - exact F.
Qed.

(** X17. The same valid payload sent twice: when the name was not stored,
    the first request is answered with 201 and the second with 400 "User
    already exists", and the second adds no row. *)
Theorem create_user_twice_is_created_then_rejected
    (user : User.t) (db : database) :
  passes_validators isdigit islower isupper user = true ->
  user_named (User.name user) db = None ->
  status_of (reply (serve (create_user isdigit islower isupper user) db)) = 201
  /\ serve (create_user isdigit islower isupper user)
       (store (serve (create_user isdigit islower isupper user) db))
     = mkoutcome (inl (HTTPException 400 "User already exists"))
         (store (serve (create_user isdigit islower isupper user) db))
         [INSERT_INTO_users (User.name user) (User.surname user)
            (User.email user) (User.phone user) (User.password user)
            (User.is_admin user)].
Proof.
  intros Hv Hn. destruct (fresh_user_is_stored user db Hv Hn) as [E F].
  split; [rewrite E; reflexivity|].
  rewrite (create_user_reaches_the_store user
             (store (serve (create_user isdigit islower isupper user) db)) Hv).
  destruct (existsb (name_is (User.name user))
              (users (store (serve (create_user isdigit islower isupper user)
                               db)))) eqn:G; [reflexivity|].
  unfold user_named in F.
  destruct (find_some_filter _ _ _ F) as [rest R].
  rewrite (existsb_false_filter _ _ G) in R. discriminate.
Qed.

(** X18. [create_user] keeps the names of [users] pairwise different,
    whatever the payload and the answer. *)
Theorem create_user_keeps_names_unique (user : User.t) (db : database) :
  user_names_unique db ->
  user_names_unique (store (serve (create_user isdigit islower isupper user) db)).
Proof.
  intros H.
  destruct (passes_validators isdigit islower isupper user) eqn:Hv.
  - rewrite (create_user_reaches_the_store user db Hv).
    destruct (existsb (name_is (User.name user)) (users db)) eqn:E;
      [exact H|].
    unfold user_names_unique; simpl. rewrite map_app; simpl.
    apply NoDup_app; [exact H | repeat constructor; intros [] |].
    intros x Hx [<-|[]]. exact (fresh_name_not_stored _ _ E Hx).
  - destruct (create_user_rejected_by_validators user db Hv) as [d E].
    rewrite E. exact H.
Qed.

(** X19. A user created with a fresh name acts on events according to the
    flag of the payload: an event creation in that user's name right after is
    answered with 201 when [is_admin] is true and with 403 when it is
    false. *)
Theorem created_user_acts_by_its_flag
    (user : User.t) (event_ : Event.t) (db : database) :
  passes_validators isdigit islower isupper user = true ->
  user_named (User.name user) db = None ->
  Event.user event_ = User.name user ->
  status_of
    (reply (serve (create_event event_)
              (store (serve (create_user isdigit islower isupper user) db))))
  = if User.is_admin user then 201 else 403.
Proof.
  intros Hv Hn Hname.
  destruct (fresh_user_is_stored user db Hv Hn) as [_ Hfind].
  rewrite <- Hname in Hfind.
  remember (store (serve (create_user isdigit islower isupper user) db))
    as db' eqn:Hdb'.
  apply find_some_filter in Hfind as [rest Hfind].
  run_handler. rewrite Hfind; simpl.
  destruct (User.is_admin user); reflexivity.
Qed.
End CreateUser.

Lemma create_user_validates_before_the_store_witness :
  passes_validators Scenario.isdigit Scenario.islower Scenario.isupper
    (User.mk "dave7" "Grohl" "dave@example.com" "Abcde" "+380501234561" false)
  = false
  /\ statements
       (serve (create_user Scenario.isdigit Scenario.islower Scenario.isupper
                 (User.mk "dave7" "Grohl" "dave@example.com" "Abcde"
                    "+380501234561" false))
          Scenario.db0) = [].
Proof.
  split; [reflexivity|].
  apply (create_user_validates_before_the_store Scenario.isdigit
           Scenario.islower Scenario.isupper
           (User.mk "dave7" "Grohl" "dave@example.com" "Abcde" "+380501234561"
              false)
           Scenario.db0).
  reflexivity.
Defined.

Lemma created_user_is_found_by_name_witness :
  passes_validators Scenario.isdigit Scenario.islower Scenario.isupper
    Samples.carol = true
  /\ fits_users_columns Samples.carol = true
  /\ user_named "carol" Scenario.db0 = None
  /\ user_named "carol"
       (store (serve (create_user Scenario.isdigit Scenario.islower
                        Scenario.isupper Samples.carol) Scenario.db0))
     = Some (UsersRow.mk 3 "carol" "Danvers" "carol@example.com" "Abcde"
               "+380501234560" true).
Proof.
  split; [reflexivity|]. split; [reflexivity|]. split; [reflexivity|].
  apply (created_user_is_found_by_name Scenario.isdigit Scenario.islower
           Scenario.isupper Samples.carol Scenario.db0); reflexivity.
Defined.

Lemma create_user_twice_is_created_then_rejected_witness :
  passes_validators Scenario.isdigit Scenario.islower Scenario.isupper
    Samples.carol = true
  /\ user_named "carol" Scenario.db0 = None
  /\ status_of
       (reply (serve (create_user Scenario.isdigit Scenario.islower
                        Scenario.isupper Samples.carol) Scenario.db0)) = 201.
Proof.
  split; [reflexivity|]. split; [reflexivity|].
  apply (create_user_twice_is_created_then_rejected Scenario.isdigit
           Scenario.islower Scenario.isupper Samples.carol Scenario.db0);
    reflexivity.
Defined.

Lemma create_user_keeps_names_unique_witness :
  user_names_unique Scenario.db0
  /\ user_names_unique
       (store (serve (create_user Scenario.isdigit Scenario.islower
                        Scenario.isupper Samples.carol) Scenario.db0)).
Proof.
  assert (H : user_names_unique Scenario.db0).
  { unfold user_names_unique; simpl. repeat constructor.
    - intros [H|[]]. discriminate H.
    - intros []. }
  split; [exact H|].
  exact (create_user_keeps_names_unique Scenario.isdigit Scenario.islower
           Scenario.isupper Samples.carol Scenario.db0 H).
Defined.

Lemma created_user_acts_by_its_flag_witness :
  passes_validators Scenario.isdigit Scenario.islower Scenario.isupper
    Samples.carol = true
  /\ user_named "carol" Scenario.db0 = None
  /\ status_of
       (reply (serve (create_event (Event.mk "Launch" "carol" "Release" 7000))
                 (store (serve (create_user Scenario.isdigit Scenario.islower
                                  Scenario.isupper Samples.carol)
                           Scenario.db0)))) = 201.
Proof.
  split; [reflexivity|]. split; [reflexivity|].
  apply (created_user_acts_by_its_flag Scenario.isdigit Scenario.islower
           Scenario.isupper Samples.carol
           (Event.mk "Launch" "carol" "Release" 7000) Scenario.db0);
    reflexivity.
Defined.

(** *** Edit and reschedule without the event *)

(** X20. An edit or a reschedule by an administrator of an event that does
    not exist is answered with 404 "Event not found" after the authorization
    query and the event lookup; no update is sent and the store is
    unchanged. *)
Theorem edit_and_reschedule_need_the_event
    (id : Z) (event_ : EventEdit.t) (user : string) (datetime_ : Z)
    (db : database) :
  event_exists id db = false ->
  (forall u, user_named (EventEdit.user event_) db = Some u ->
             UsersRow.isadmin u = true ->
             serve (update_event id event_) db =
               mkoutcome (inl (HTTPException 404 "Event not found")) db
                 [SELECT_isadmin_FROM_users_WHERE_name (EventEdit.user event_);
                  SELECT_id_FROM_event_WHERE_id id])
  /\ (forall u, user_named user db = Some u ->
                UsersRow.isadmin u = true ->
                serve (update_date id user datetime_) db =
                  mkoutcome (inl (HTTPException 404 "Event not found")) db
                    [SELECT_isadmin_FROM_users_WHERE_name user;
                     SELECT_id_FROM_event_WHERE_id id]).
Proof.
  intros He. apply existsb_false_filter in He.
  split; intros u Hu Ha; apply find_some_filter in Hu as [us Hu];
    run_handler; rewrite Hu; simpl; rewrite Ha; simpl; rewrite He; simpl;
    reflexivity.
Qed.

Lemma edit_and_reschedule_need_the_event_witness :
  event_exists 7 Scenario.db0 = false
  /\ reply (serve (update_date 7 "alice" 9000) Scenario.db0)
     = inl (HTTPException 404 "Event not found").
Proof.
  split; [reflexivity|].
  rewrite (proj2 (edit_and_reschedule_need_the_event 7
                    (EventEdit.mk "Picnic" "alice" "Outdoors") "alice" 9000
                    Scenario.db0 eq_refl)
             Scenario.alice eq_refl eq_refl).
  reflexivity.
Defined.

(** *** RSVPs in sequence *)

Lemma find_after_update (id : Z) (f : EventRow.t -> EventRow.t)
    (l : list EventRow.t) :
  (forall e, EventRow.id (f e) = EventRow.id e) ->
  find (event_id_is id) (map (fun e => if event_id_is id e then f e else e) l)
  = option_map f (find (event_id_is id) l).
Proof.
  intros Hf. induction l as [|e l IH]; simpl; [reflexivity|].
  destruct (event_id_is id e) eqn:E.
  - unfold event_id_is in *. rewrite Hf, E. reflexivity.
  - rewrite E. exact IH.
Qed.

Lemma rsvp_store (id : Z) (user : string) (member_id : Z) (db : database)
    (u : UsersRow.t) (e : EventRow.t) :
  user_named user db = Some u ->
  UsersRow.isadmin u = true ->
  find (event_id_is id) (event db) = Some e ->
  existsb (fun m => UsersRow.id m =? member_id) (users db) = true ->
  store (serve (update_members id user member_id) db)
  = update_where id
      (set_members (EventRow.members e ++ str_of_int member_id ++ ",")) db.
Proof.
  intros Hu Ha He Hm.
  apply find_some_filter in Hu as [us Hu].
  apply find_some_filter in He as [es He].
  apply existsb_true_filter in Hm as (m & ms & Hm).
  run_handler. rewrite Hu; simpl. rewrite Ha; simpl. rewrite He; simpl.
  rewrite Hm; simpl. rewrite py_in_int_strs; simpl. reflexivity.
Qed.

Lemma rsvp_all_accumulates (id : Z) (user : string) (u : UsersRow.t)
    (ids : list Z) :
  UsersRow.isadmin u = true ->
  forall (db : database) (e : EventRow.t),
    user_named user db = Some u ->
    find (event_id_is id) (event db) = Some e ->
    Forall (fun m => existsb (fun x => UsersRow.id x =? m) (users db) = true)
      ids ->
    members_of id (rsvp_all id user ids db)
    = Some (fold_left (fun field m => field ++ str_of_int m ++ ",")%string ids
              (EventRow.members e))
    /\ users (rsvp_all id user ids db) = users db.
Proof.
  intros Ha. induction ids as [|m ids IH]; intros db e Hu He Hall.
  - unfold members_of; simpl. rewrite He. split; reflexivity.
  - inversion Hall as [|x xs Hm Hrest]; subst.
    cbn [rsvp_all fold_left].
    rewrite (rsvp_store id user m db u e Hu Ha He Hm).
    set (db' := update_where id
                  (set_members (EventRow.members e ++ str_of_int m ++ ",")) db).
    assert (Hu' : user_named user db' = Some u) by exact Hu.
    assert (He' : find (event_id_is id) (event db')
                  = Some (set_members
                            (EventRow.members e ++ str_of_int m ++ ",") e)).
    { unfold db', update_where, set_event; simpl.
      rewrite find_after_update; [rewrite He; reflexivity | reflexivity]. }
    destruct (IH db' _ Hu' He' Hrest) as [IHm IHu].
    split; [exact IHm | exact IHu].
Qed.

(** X21. RSVPs in sequence by an administrator, for members that are all
    stored, on an event whose members field is empty: afterwards the field
    is the text [members_after] of the identifiers in the order sent, each
    followed by a comma, an identifier sent twice standing twice. *)
Theorem rsvps_accumulate_in_the_members_field
    (id : Z) (user : string) (u : UsersRow.t) (e : EventRow.t)
    (ids : list Z) (db : database) :
  user_named user db = Some u ->
  UsersRow.isadmin u = true ->
  find (event_id_is id) (event db) = Some e ->
  EventRow.members e = "" ->
  Forall (fun m => existsb (fun x => UsersRow.id x =? m) (users db) = true)
    ids ->
  members_of id (rsvp_all id user ids db) = Some (members_after ids).
Proof.
  intros Hu Ha He Hempty Hall.
  destruct (rsvp_all_accumulates id user u ids Ha db e Hu He Hall) as [H _].
  rewrite H, Hempty. reflexivity.
Qed.

Lemma rsvps_accumulate_in_the_members_field_witness :
  user_named "alice" Scenario.db0 = Some Scenario.alice
  /\ find (event_id_is 1) (event Scenario.db0) = Some Scenario.meetup
  /\ members_of 1 (rsvp_all 1 "alice" [2; 1; 2] Scenario.db0) = Some "2,1,2,".
Proof.
  split; [reflexivity|]. split; [reflexivity|].
  apply (rsvps_accumulate_in_the_members_field 1 "alice" Scenario.alice
           Scenario.meetup [2; 1; 2] Scenario.db0);
    try reflexivity.
  repeat constructor.
Defined.

(** X1. What [update_members] writes can be read back: after RSVPs in
    sequence by an administrator, for members that are all stored, on an event
    whose members field is empty, the field of the event splits on the comma
    into the decimal texts of the members in the order of their RSVPs,
    followed by one empty string. *)
Theorem rsvps_are_read_back_in_order
    (id : Z) (user : string) (u : UsersRow.t) (e : EventRow.t)
    (ids : list Z) (db : database) :
  user_named user db = Some u ->
  UsersRow.isadmin u = true ->
  find (event_id_is id) (event db) = Some e ->
  EventRow.members e = "" ->
  Forall (fun m => existsb (fun x => UsersRow.id x =? m) (users db) = true)
    ids ->
  option_map members_list (members_of id (rsvp_all id user ids db))
  = Some (map str_of_int ids ++ [""])%list.
Proof.
  intros Hu Ha He Hempty Hall.
  destruct (rsvp_all_accumulates id user u ids Ha db e Hu He Hall) as [H _].
  rewrite H, Hempty. cbn [option_map].
  change (fold_left (fun field m => field ++ str_of_int m ++ ",")%string ids "")
    with (members_after ids).
  rewrite members_after_splits. reflexivity.
Qed.

Lemma rsvps_are_read_back_in_order_witness :
  user_named "alice" Scenario.db0 = Some Scenario.alice
  /\ find (event_id_is 1) (event Scenario.db0) = Some Scenario.meetup
  /\ option_map members_list
       (members_of 1 (rsvp_all 1 "alice" [2; 1; 2] Scenario.db0))
     = Some ["2"; "1"; "2"; ""].
Proof.
  split; [reflexivity|]. split; [reflexivity|].
  apply (rsvps_are_read_back_in_order 1 "alice" Scenario.alice
           Scenario.meetup [2; 1; 2] Scenario.db0);
    try reflexivity.
  repeat constructor.
Defined.

(** *** The general lemmas of the first part on the example store *)

Lemma lookup_only_after_authorization_witness :
  reads_user_with_fetchone (PUT_event_update 1
                              (EventEdit.mk "Picnic" "alice" "Outdoors")) = true
  /\ In (SELECT_id_FROM_event_WHERE_id 1)
        (statements
           (serve (update_event 1 (EventEdit.mk "Picnic" "alice" "Outdoors"))
              Scenario.db0))
  /\ exists u, user_named "alice" Scenario.db0 = Some u
               /\ UsersRow.isadmin u = true.
Proof.
  assert (H : In (SELECT_id_FROM_event_WHERE_id 1)
                (statements
                   (serve (update_event 1
                             (EventEdit.mk "Picnic" "alice" "Outdoors"))
                      Scenario.db0))).
  { right; left; reflexivity. }
  split; [reflexivity|]. split; [exact H|].
  exact (lookup_only_after_authorization
           (PUT_event_update 1 (EventEdit.mk "Picnic" "alice" "Outdoors"))
           Scenario.db0 1 eq_refl (or_introl H)).
Defined.

Lemma delete_event_any_stored_user_witness :
  user_named "bob" Scenario.db0 = Some Scenario.bob
  /\ event_exists 1 Scenario.db0 = true
  /\ event (store (serve (delete_event 1 "bob") Scenario.db0)) = [].
Proof.
  split; [reflexivity|]. split; [reflexivity|].
  rewrite (delete_event_any_stored_user 1 "bob" Scenario.db0 Scenario.bob
             eq_refl eq_refl).
  reflexivity.
Defined.

Lemma update_members_always_appends_witness :
  user_named "alice" Scenario.db0 = Some Scenario.alice
  /\ find (event_id_is 1) (event Scenario.db0) = Some Scenario.meetup
  /\ map EventRow.members
       (event (store (serve (update_members 1 "alice" 2) Scenario.db0)))
     = ["2,"].
Proof.
  split; [reflexivity|]. split; [reflexivity|].
  rewrite (update_members_always_appends 1 "alice" 2 Scenario.db0
             Scenario.alice Scenario.meetup eq_refl eq_refl eq_refl eq_refl).
  reflexivity.
Defined.
